(** * covid19br.common.models.full_report: the report reconciliation engine

    A shallow embedding of [FullReportModel] (full_report.py) and the proofs
    of its specified properties.

    Python objects are modelled by value: a method that mutates [self] is a
    function that returns the new report (paired with the method's result
    when it has one).  The dictionary of county bulletins is an association
    list in insertion order, which is the order Python iterates a dict in.
    Python integers are unbounded, so counts are [Z]; an attribute that may
    be [None] is an [option]. *)

From Stdlib Require Import ZArith List String Ascii Bool Lia.
From Stdlib Require Import Permutation Sorted RelationClasses.
From Stdlib Require OrdersEx.
Import ListNotations.

Local Open Scope Z_scope.
Local Open Scope string_scope.
Local Open Scope list_scope.

Set Implicit Arguments.

(** ** Enumerations of the modules constants and warnings *)

(** Modelled from the spec: [ReportQuality] of constants.py, a module whose
    code is not embedded here.  The three members the report reads are
    named; [OTHER_QUALITY] stands for any further member of the enum. *)
Module ReportQuality.
Inductive t : Type :=
| COUNTY_BULLETINS
| UNDEFINED_OR_IMPORTED_CASES
| ONLY_TOTAL
| OTHER_QUALITY (n : nat).

Definition eqb (a b : t) : bool :=
  match a, b with
  | COUNTY_BULLETINS, COUNTY_BULLETINS => true
  | UNDEFINED_OR_IMPORTED_CASES, UNDEFINED_OR_IMPORTED_CASES => true
  | ONLY_TOTAL, ONLY_TOTAL => true
  | OTHER_QUALITY n, OTHER_QUALITY m => Nat.eqb n m
  | _, _ => false
  end.
End ReportQuality.

(** Modelled from the spec: the members of [WarningType] (warnings.py, a
    module whose code is not embedded here) that full_report.py names. *)
Module WarningType.
Inductive t : Type :=
| SOURCES_DONT_MATCH
| MISSING_COUNTY_BULLETINS
| MISSING_IMPORTED_UNDEFINED_CASES
| ONLY_TOTAL
| MISSING_CONFIRMED_CASES
| MISSING_DEATHS
| NO_OFFICIAL_TOTAL
| TOTAL_DONT_MATCH.
End WarningType.

(** ** The Python built-ins the report uses *)

(** [x in xs] for a list. *)
Definition py_in {A} (eqb : A -> A -> bool) (x : A) (xs : list A) : bool :=
  existsb (eqb x) xs.

(** Truthiness of a container: [not xs] is true exactly on the empty one. *)
Definition py_not {A} (xs : list A) : bool :=
  match xs with [] => true | _ :: _ => false end.

(** [==] on two [Optional[int]] values: [None == None], and [None] differs
    from every integer. *)
Definition opt_eqb (a b : option Z) : bool :=
  match a, b with
  | Some x, Some y => Z.eqb x y
  | None, None => true
  | _, _ => false
  end.

(** [sep.join(xs)]. *)
Fixpoint str_join (sep : string) (xs : list string) : string :=
  match xs with
  | [] => ""
  | [x] => x
  | x :: rest => x ++ sep ++ str_join sep rest
  end.

(** [sorted(xs, key=key)] on string keys: a stable sort, ascending in the
    code-point order of [str].  An element is inserted in front of the first
    element whose key is not smaller, so equal keys keep their order. *)
Fixpoint insert_by {A} (key : A -> string) (x : A) (l : list A) : list A :=
  match l with
  | [] => [x]
  | y :: l' =>
      if String.leb (key x) (key y) then x :: l else y :: insert_by key x l'
  end.

Definition sorted {A} (key : A -> string) (l : list A) : list A :=
  fold_right (insert_by key) [] l.

(** [set(xs)] of strings, as a duplicate-free list (first occurrences). *)
Fixpoint py_set (xs : list string) : list string :=
  match xs with
  | [] => []
  | x :: rest => x :: filter (fun y => negb (String.eqb x y)) (py_set rest)
  end.

(** A [dict] with integer keys, in insertion order. *)
Section Dict.
Variable V : Type.

Definition dict := list (Z * V).

Fixpoint dict_get (k : Z) (d : dict) : option V :=
  match d with
  | [] => None
  | (k', v) :: d' => if Z.eqb k k' then Some v else dict_get k d'
  end.

Fixpoint dict_remove (k : Z) (d : dict) : dict :=
  match d with
  | [] => []
  | (k', v) :: d' => if Z.eqb k k' then d' else (k', v) :: dict_remove k d'
  end.

(** [d.pop(k, None)]. *)
Definition dict_pop (k : Z) (d : dict) : option V * dict :=
  (dict_get k d, dict_remove k d).

(** [d[k] = v]: a present key keeps its place, a new key goes last. *)
Fixpoint dict_set (k : Z) (v : V) (d : dict) : dict :=
  match d with
  | [] => [(k, v)]
  | (k', v') :: d' =>
      if Z.eqb k k' then (k, v) :: d' else (k', v') :: dict_set k v d'
  end.

(** [d.values()]. *)
Definition dict_values (d : dict) : list V := map snd d.

Definition dict_keys (d : dict) : list Z := map fst d.
End Dict.

(** ** The model *)

Section FullReport.

(** Types declared outside full_report.py: [datetime.date], the [State]
    enum and the set of source names a bulletin carries. *)
Variables Date State Sources : Type.

(** What [BulletinModel.__init__] makes of its [source] argument. *)
Variable sources_of : string -> Sources.

(** What [merge_data] makes of the two bulletins' sources. *)
Variable merge_sources : Sources -> Sources -> Sources.

(** The value of a [WarningType] member, [slug.value]. *)
Variable slug_value : WarningType.t -> string.

(** *** Bulletins (covid19br.common.models.bulletin_models) *)

(** Modelled from the spec: the fields of [BulletinModel]; the classes of
    bulletin_models.py are not embedded from their code. *)
Record BulletinModel : Type := mkBulletin {
  date : Date;
  state : State;
  sources : Sources;
  confirmed_cases : option Z;
  deaths : option Z
}.

(** Modelled from the spec: a county bulletin is a bulletin with a city. *)
Record CountyBulletinModel : Type := mkCounty {
  county_data :> BulletinModel;
  city : string
}.

Definition ImportedUndefinedBulletinModel : Type := BulletinModel.
Definition StateTotalBulletinModel : Type := BulletinModel.

(** The argument of [add_new_bulletin]: the three classes the method tests
    for with [isinstance], and any other object. *)
Inductive Bulletin : Type :=
| County (b : CountyBulletinModel)
| ImportedUndefined (b : ImportedUndefinedBulletinModel)
| StateTotal (b : StateTotalBulletinModel)
| OtherBulletin.

(** Modelled from the spec: the constructor called with a date, a state and
    a source only leaves both counts unset. *)
Definition new_bulletin (d : Date) (s : State) (source : string)
  : BulletinModel :=
  mkBulletin d s (sources_of source) None None.

(** Modelled from the spec: presence of each count, [is_empty] (neither is
    recorded) and [is_complete] (both are). *)
Definition has_confirmed_cases (b : BulletinModel) : bool :=
  match confirmed_cases b with Some _ => true | None => false end.

Definition has_deaths (b : BulletinModel) : bool :=
  match deaths b with Some _ => true | None => false end.

Definition is_empty (b : BulletinModel) : bool :=
  negb (has_confirmed_cases b) && negb (has_deaths b).

Definition is_complete (b : BulletinModel) : bool :=
  has_confirmed_cases b && has_deaths b.

(** Modelled from the spec: [merge_data] fills each count the receiver
    lacks from the other bulletin and overwrites none it has. *)
Definition fill (mine theirs : option Z) : option Z :=
  match mine with Some _ => mine | None => theirs end.

Definition merge_data (self other : CountyBulletinModel)
  : CountyBulletinModel :=
  mkCounty
    (mkBulletin (date self) (state self)
       (merge_sources (sources self) (sources other))
       (fill (confirmed_cases self) (confirmed_cases other))
       (fill (deaths self) (deaths other)))
    (city self).

(** Modelled from the spec: the running sums of the auto-calculated total.
    An unset count is taken as zero by both operations. *)
Definition count (o : option Z) : Z :=
  match o with Some n => n | None => 0 end.

Definition increase_confirmed_cases (v : Z) (b : BulletinModel)
  : BulletinModel :=
  mkBulletin (date b) (state b) (sources b)
    (Some (count (confirmed_cases b) + v)) (deaths b).

Definition decrease_confirmed_cases (v : Z) (b : BulletinModel)
  : BulletinModel :=
  mkBulletin (date b) (state b) (sources b)
    (Some (count (confirmed_cases b) - v)) (deaths b).

Definition increase_deaths (v : Z) (b : BulletinModel) : BulletinModel :=
  mkBulletin (date b) (state b) (sources b)
    (confirmed_cases b) (Some (count (deaths b) + v)).

Definition decrease_deaths (v : Z) (b : BulletinModel) : BulletinModel :=
  mkBulletin (date b) (state b) (sources b)
    (confirmed_cases b) (Some (count (deaths b) - v)).

(** Modelled from the spec: the identity key of a county bulletin,
    [hash(bulletin)], is derived from its city and its state. *)
Variable hash_city_state : string -> State -> Z.

Definition hash (b : CountyBulletinModel) : Z :=
  hash_city_state (city b) (state b).

(** [existent_bulletin == new_bulletin], the value equality that the
    bulletin classes provide. *)
Variable county_eq : CountyBulletinModel -> CountyBulletinModel -> bool.

(** The row a bulletin is exported as, [to_csv_row], for each class. *)
Variable Row : Type.
Variable county_to_csv_row : CountyBulletinModel -> Row.
Variable imported_to_csv_row : ImportedUndefinedBulletinModel -> Row.
Variable total_to_csv_row : StateTotalBulletinModel -> Row.

(** *** Warnings (covid19br.common.warnings) *)

(** The text of a warning.  Each message of full_report.py is a fixed
    template; the constructor names the template and carries the values
    that are formatted into it. *)
Inductive Description : Type :=
| SourcesDontMatchText (fonte1 fonte2 : Sources)
| MissingCountyBulletinsText
| MissingImportedUndefinedCasesText
| OnlyTotalText
| MissingConfirmedCasesText
| MissingDeathsText
| NoOfficialTotalText
| TotalDontMatchText
    (auto : Sources * option Z * option Z)
    (official : list (Sources * option Z * option Z)).

(** Modelled from the spec: a warning is a kind (its slug) with an optional
    description, and two warnings of the same kind are the same element of
    a set. *)
Record BulletinWarning : Type := mkWarning {
  slug : string;
  description : option Description
}.

Definition warning_eq (a b : BulletinWarning) : bool :=
  String.eqb (slug a) (slug b).

(** [s.add(w)] on a set of warnings: an element equal to [w] stays as it
    is, otherwise [w] joins the set. *)
Definition set_add (w : BulletinWarning) (s : list BulletinWarning)
  : list BulletinWarning :=
  if existsb (warning_eq w) s then s else s ++ [w].

(** *** FullReportModel *)

Record FullReportModel : Type := mkReport {
  reference_date : Date;
  published_at : Date;
  report_state : State;   (* the attribute [state] of the report *)
  undefined_or_imported_cases_bulletin : ImportedUndefinedBulletinModel;
  _official_total_bulletins : list StateTotalBulletinModel;
  _county_bulletins : dict CountyBulletinModel;
  _auto_calculated_total : StateTotalBulletinModel;
  _expected_qualities : list ReportQuality.t;
  _warnings : list BulletinWarning
}.

(** Assignments to one attribute of [self]. *)
Definition set_undefined (b : ImportedUndefinedBulletinModel)
           (self : FullReportModel) : FullReportModel :=
  mkReport (reference_date self) (published_at self) (report_state self)
    b (_official_total_bulletins self) (_county_bulletins self)
    (_auto_calculated_total self) (_expected_qualities self)
    (_warnings self).

Definition set_official (l : list StateTotalBulletinModel)
           (self : FullReportModel) : FullReportModel :=
  mkReport (reference_date self) (published_at self) (report_state self)
    (undefined_or_imported_cases_bulletin self) l (_county_bulletins self)
    (_auto_calculated_total self) (_expected_qualities self)
    (_warnings self).

Definition set_county (d : dict CountyBulletinModel)
           (self : FullReportModel) : FullReportModel :=
  mkReport (reference_date self) (published_at self) (report_state self)
    (undefined_or_imported_cases_bulletin self)
    (_official_total_bulletins self) d
    (_auto_calculated_total self) (_expected_qualities self)
    (_warnings self).

Definition set_total (t : StateTotalBulletinModel)
           (self : FullReportModel) : FullReportModel :=
  mkReport (reference_date self) (published_at self) (report_state self)
    (undefined_or_imported_cases_bulletin self)
    (_official_total_bulletins self) (_county_bulletins self)
    t (_expected_qualities self) (_warnings self).

Definition set_warnings (w : list BulletinWarning)
           (self : FullReportModel) : FullReportModel :=
  mkReport (reference_date self) (published_at self) (report_state self)
    (undefined_or_imported_cases_bulletin self)
    (_official_total_bulletins self) (_county_bulletins self)
    (_auto_calculated_total self) (_expected_qualities self) w.

(** [BadReportError], raised by the constructor. *)
Inductive BadReportError : Type :=
| BadReport (message : string).

(** [__init__]: either the error raised or the report constructed. *)
Definition init (reference_date published_at : Date) (state : State)
           (qualities : list ReportQuality.t)
  : BadReportError + FullReportModel :=
  if py_not qualities then
    inl (BadReport "A report can't have no qualities.")
  else
    inr (mkReport reference_date published_at state
           (new_bulletin reference_date state "Não encontrada")
           []
           []
           (new_bulletin reference_date state "Soma automática")
           qualities
           []).

Definition total_bulletin (self : FullReportModel)
  : StateTotalBulletinModel :=
  match _official_total_bulletins self with
  | first :: _ => first
  | [] => _auto_calculated_total self
  end.

Definition county_bulletins (self : FullReportModel)
  : list CountyBulletinModel :=
  dict_values (_county_bulletins self).

(** The bulletin object is always truthy, so only [is_empty] decides. *)
Definition has_undefined_or_imported_cases (self : FullReportModel) : bool :=
  true && negb (is_empty (undefined_or_imported_cases_bulletin self)).

Definition add_warning (slug : WarningType.t) (description : option Description)
           (self : FullReportModel) : FullReportModel :=
  let warning := mkWarning (slug_value slug) description in
  set_warnings (set_add warning (_warnings self)) self.

(** The two conditional updates of the running total, shared by
    [_pop_county_bulletin] (decrease) and [add_new_bulletin] (increase). *)
Definition decrease_total (b : BulletinModel) (t : StateTotalBulletinModel)
  : StateTotalBulletinModel :=
  let t := match confirmed_cases b with
           | Some c => decrease_confirmed_cases c t
           | None => t
           end in
  match deaths b with
  | Some d => decrease_deaths d t
  | None => t
  end.

Definition increase_total (b : BulletinModel) (t : StateTotalBulletinModel)
  : StateTotalBulletinModel :=
  let t := match confirmed_cases b with
           | Some c => increase_confirmed_cases c t
           | None => t
           end in
  match deaths b with
  | Some d => increase_deaths d t
  | None => t
  end.

(** A bulletin object is truthy, so [if existent_bulletin:] only tests
    that the key was found. *)
Definition _pop_county_bulletin (bulletin_key : Z) (self : FullReportModel)
  : option CountyBulletinModel * FullReportModel :=
  let (existent_bulletin, rest) :=
    dict_pop bulletin_key (_county_bulletins self) in
  let self := set_county rest self in
  match existent_bulletin with
  | Some existent =>
      (Some existent,
       set_total (decrease_total existent (_auto_calculated_total self))
         self)
  | None => (None, self)
  end.

(** The condition under which the two sources are reported as
    disagreeing. *)
Definition sources_disagree (existent_bulletin new_bulletin
                               : CountyBulletinModel) : bool :=
  let both_have_deaths :=
    has_deaths existent_bulletin && has_deaths new_bulletin in
  let both_have_confirmed_cases :=
    has_confirmed_cases existent_bulletin
    && has_confirmed_cases new_bulletin in
  (both_have_deaths
   && negb (opt_eqb (deaths existent_bulletin) (deaths new_bulletin)))
  || (both_have_confirmed_cases
      && negb (opt_eqb (confirmed_cases existent_bulletin)
                 (confirmed_cases new_bulletin))).

Definition _compare_county_bulletins_and_return_the_completest
           (existent_bulletin new_bulletin : CountyBulletinModel)
           (self : FullReportModel)
  : CountyBulletinModel * FullReportModel :=
  if county_eq existent_bulletin new_bulletin then
    (existent_bulletin, self)
  else
    let self :=
      if sources_disagree existent_bulletin new_bulletin then
        add_warning WarningType.SOURCES_DONT_MATCH
          (Some (SourcesDontMatchText (sources existent_bulletin)
                   (sources new_bulletin)))
          self
      else self in
    if is_complete existent_bulletin then (existent_bulletin, self)
    else if is_complete new_bulletin then (new_bulletin, self)
    else (merge_data existent_bulletin new_bulletin, self).

Definition add_new_bulletin (bulletin : Bulletin) (self : FullReportModel)
  : FullReportModel :=
  match bulletin with
  | County bulletin =>
      let bulletin_key := hash bulletin in
      let (existent_bulletin, self) :=
        _pop_county_bulletin bulletin_key self in
      let (bulletin, self) :=
        match existent_bulletin with
        | Some existent =>
            _compare_county_bulletins_and_return_the_completest
              existent bulletin self
        | None => (bulletin, self)
        end in
      let self :=
        set_county (dict_set bulletin_key bulletin (_county_bulletins self))
          self in
      set_total (increase_total bulletin (_auto_calculated_total self)) self
  | ImportedUndefined bulletin =>
      let self := set_undefined bulletin self in
      set_total (increase_total bulletin (_auto_calculated_total self)) self
  | StateTotal bulletin =>
      if negb (is_empty bulletin) then
        set_official (_official_total_bulletins self ++ [bulletin]) self
      else self
  | OtherBulletin => self
  end.

Definition check_total_death_cases (self : FullReportModel) : bool :=
  if py_not (_official_total_bulletins self) then false
  else
    let auto_calculated_deaths := deaths (_auto_calculated_total self) in
    forallb
      (fun official_bulletin =>
         opt_eqb auto_calculated_deaths (deaths official_bulletin))
      (_official_total_bulletins self).

Definition check_total_confirmed_cases (self : FullReportModel) : bool :=
  if py_not (_official_total_bulletins self) then false
  else
    let auto_calculated_cases :=
      confirmed_cases (_auto_calculated_total self) in
    forallb
      (fun official_bulletin =>
         opt_eqb auto_calculated_cases (confirmed_cases official_bulletin))
      (_official_total_bulletins self).

Definition to_csv_rows (self : FullReportModel) : list Row :=
  let rows :=
    map county_to_csv_row
      (filter (fun bulletin : CountyBulletinModel =>
                 negb (is_empty bulletin))
         (sorted city (county_bulletins self))) in
  let rows :=
    rows ++ [imported_to_csv_row
               (undefined_or_imported_cases_bulletin self)] in
  rows ++ [total_to_csv_row (total_bulletin self)].

Definition numbers (b : BulletinModel) : Sources * option Z * option Z :=
  (sources b, confirmed_cases b, deaths b).

Definition _auto_detect_warnings (self : FullReportModel)
  : FullReportModel :=
  let self :=
    if py_in ReportQuality.eqb ReportQuality.COUNTY_BULLETINS
         (_expected_qualities self)
       && py_not (_county_bulletins self)
    then add_warning WarningType.MISSING_COUNTY_BULLETINS
           (Some MissingCountyBulletinsText) self
    else self in
  let self :=
    if py_in ReportQuality.eqb ReportQuality.UNDEFINED_OR_IMPORTED_CASES
         (_expected_qualities self)
       && negb (has_undefined_or_imported_cases self)
    then add_warning WarningType.MISSING_IMPORTED_UNDEFINED_CASES
           (Some MissingImportedUndefinedCasesText) self
    else self in
  let self :=
    if py_in ReportQuality.eqb ReportQuality.ONLY_TOTAL
         (_expected_qualities self)
    then add_warning WarningType.ONLY_TOTAL (Some OnlyTotalText) self
    else self in
  let self :=
    if negb (has_confirmed_cases (total_bulletin self))
    then add_warning WarningType.MISSING_CONFIRMED_CASES
           (Some MissingConfirmedCasesText) self
    else self in
  let self :=
    if negb (has_deaths (total_bulletin self))
    then add_warning WarningType.MISSING_DEATHS
           (Some MissingDeathsText) self
    else self in
  if py_not (_official_total_bulletins self) then
    add_warning WarningType.NO_OFFICIAL_TOTAL
      (Some NoOfficialTotalText) self
  else if negb (is_empty (_auto_calculated_total self))
          && (negb (check_total_confirmed_cases self)
              || negb (check_total_death_cases self))
  then
    add_warning WarningType.TOTAL_DONT_MATCH
      (Some (TotalDontMatchText
               (numbers (_auto_calculated_total self))
               (map numbers (_official_total_bulletins self))))
      self
  else self.

(** The property [warnings_slug]: the string, and the report after the
    warnings it detects were recorded. *)
Definition warnings_slug (self : FullReportModel)
  : string * FullReportModel :=
  let self := _auto_detect_warnings self in
  if py_not (_warnings self) then ("", self)
  else
    let warnings := py_set (map slug (_warnings self)) in
    (("__" ++ str_join "__" (sorted (fun s => s) warnings))%string, self).

(** The calls of [add_warning] that one run of [_auto_detect_warnings]
    makes on a report, in order (see [auto_detect_runs_detected]). *)
Definition detected (self : FullReportModel)
  : list (WarningType.t * option Description) :=
  (if py_in ReportQuality.eqb ReportQuality.COUNTY_BULLETINS
        (_expected_qualities self)
      && py_not (_county_bulletins self)
   then [(WarningType.MISSING_COUNTY_BULLETINS,
          Some MissingCountyBulletinsText)]
   else [])
  ++ (if py_in ReportQuality.eqb ReportQuality.UNDEFINED_OR_IMPORTED_CASES
           (_expected_qualities self)
         && negb (has_undefined_or_imported_cases self)
      then [(WarningType.MISSING_IMPORTED_UNDEFINED_CASES,
             Some MissingImportedUndefinedCasesText)]
      else [])
  ++ (if py_in ReportQuality.eqb ReportQuality.ONLY_TOTAL
           (_expected_qualities self)
      then [(WarningType.ONLY_TOTAL, Some OnlyTotalText)]
      else [])
  ++ (if negb (has_confirmed_cases (total_bulletin self))
      then [(WarningType.MISSING_CONFIRMED_CASES,
             Some MissingConfirmedCasesText)]
      else [])
  ++ (if negb (has_deaths (total_bulletin self))
      then [(WarningType.MISSING_DEATHS, Some MissingDeathsText)]
      else [])
  ++ (if py_not (_official_total_bulletins self)
      then [(WarningType.NO_OFFICIAL_TOTAL, Some NoOfficialTotalText)]
      else if negb (is_empty (_auto_calculated_total self))
              && (negb (check_total_confirmed_cases self)
                  || negb (check_total_death_cases self))
      then [(WarningType.TOTAL_DONT_MATCH,
             Some (TotalDontMatchText
                     (numbers (_auto_calculated_total self))
                     (map numbers (_official_total_bulletins self))))]
      else []).

Definition add_warnings (ws : list (WarningType.t * option Description))
           (self : FullReportModel) : FullReportModel :=
  fold_left (fun r w => add_warning (fst w) (snd w) r) ws self.

(** A warning of the given kind is in the set. *)
Definition has_warning (k : string) (s : list BulletinWarning) : bool :=
  existsb (fun w => String.eqb k (slug w)) s.

(** A sequence of [add_new_bulletin] calls, first bulletin first. *)
Definition ingest (bulletins : list Bulletin) (self : FullReportModel)
  : FullReportModel :=
  fold_left (fun r b => add_new_bulletin b r) bulletins self.

(** The sum of one count over bulletins, an unset count adding nothing. *)
Definition sum_counts (field : BulletinModel -> option Z)
           (bulletins : list BulletinModel) : Z :=
  fold_right (fun b acc => count (field b) + acc) 0 bulletins.

(** What the bulletins a report holds now add up to: its county bulletins
    and its undefined/imported bulletin, each once. *)
Definition contributed (field : BulletinModel -> option Z)
           (self : FullReportModel) : Z :=
  sum_counts field (map county_data (county_bulletins self))
  + count (field (undefined_or_imported_cases_bulletin self)).

(** The invariant of the auto-calculated total. *)
Definition total_is_sum (self : FullReportModel) : Prop :=
  count (confirmed_cases (_auto_calculated_total self))
  = contributed confirmed_cases self
  /\ count (deaths (_auto_calculated_total self))
     = contributed deaths self.

(** The two sources report one count each and the counts differ. *)
Definition counts_differ (a b : option Z) : Prop :=
  exists x y, a = Some x /\ b = Some y /\ x <> y.

(** The bulletin that the merge-or-choose step returns; it does not depend
    on the report (see [compare_result]). *)
Definition completest (existent_bulletin new_bulletin : CountyBulletinModel)
  : CountyBulletinModel :=
  if county_eq existent_bulletin new_bulletin then existent_bulletin
  else if is_complete existent_bulletin then existent_bulletin
       else if is_complete new_bulletin then new_bulletin
            else merge_data existent_bulletin new_bulletin.

(** No two entries of the county dictionary share a key. *)
Definition keys_unique (self : FullReportModel) : Prop :=
  NoDup (dict_keys (_county_bulletins self)).

(** How many bulletins of a sequence are undefined/imported ones. *)
Definition imported_count (bulletins : list Bulletin) : nat :=
  List.length (filter (fun b => match b with
                           | ImportedUndefined _ => true
                           | _ => false
                           end) bulletins).

(** The official totals that a sequence of bulletins adds: its non-empty
    [StateTotalBulletinModel]s, in order. *)
Definition official_of (bulletins : list Bulletin)
  : list StateTotalBulletinModel :=
  flat_map (fun b => match b with
                     | StateTotal t => if negb (is_empty t) then [t] else []
                     | _ => []
                     end) bulletins.

(** The last undefined/imported bulletin of a sequence, or the given one
    when the sequence has none. *)
Definition last_imported (bulletins : list Bulletin)
           (stored : ImportedUndefinedBulletinModel)
  : ImportedUndefinedBulletinModel :=
  fold_left (fun u b => match b with
                        | ImportedUndefined i => i
                        | _ => u
                        end) bulletins stored.

(** No two warnings of the set are of one kind. *)
Definition kinds_unique (self : FullReportModel) : Prop :=
  NoDup (map slug (_warnings self)).

(** The bulletins of a sequence that can change the county dictionary, the
    undefined/imported bulletin or the auto-calculated total. *)
Definition contributing (bulletins : list Bulletin) : list Bulletin :=
  filter (fun b => match b with
                   | County _ | ImportedUndefined _ => true
                   | _ => false
                   end) bulletins.

(** ** Properties of the built-ins *)

(** The code-point order on strings is transitive. *)
Lemma string_compare_OT (a b : string) :
  String.compare a b = OrdersEx.String_as_OT.compare a b.
Proof.
  revert b; induction a as [|x a IH]; intros [|y b]; reflexivity.
Qed.

Lemma string_leb_lt_or_eq (a b : string) :
  String.leb a b = true <-> OrdersEx.String_as_OT.lt a b \/ a = b.
Proof.
  unfold String.leb. rewrite string_compare_OT.
  destruct (OrdersEx.String_as_OT.compare_spec a b) as [E | E | E];
    split; intros H; auto; try discriminate.
  destruct H as [H | ->].
  - exfalso. apply (StrictOrder_Irreflexive a).
    eapply StrictOrder_Transitive; eauto.
  - exfalso. revert E. apply StrictOrder_Irreflexive.
Qed.

Lemma string_leb_refl (a : string) : String.leb a a = true.
Proof. apply string_leb_lt_or_eq; auto. Qed.

Lemma string_leb_trans (a b c : string) :
  String.leb a b = true -> String.leb b c = true -> String.leb a c = true.
Proof.
  rewrite !string_leb_lt_or_eq.
  intros [H1 | ->] [H2 | ->]; auto.
  left. eapply StrictOrder_Transitive; eauto.
Qed.

Lemma string_leb_false (a b : string) :
  String.leb a b = false -> String.leb b a = true /\ a <> b.
Proof.
  intros H. split.
  - destruct (String.leb_total a b) as [E | E]; congruence.
  - intros ->. rewrite string_leb_refl in H. discriminate.
Qed.

Section Sorted.
Variable A : Type.
Variable key : A -> string.

(** The order [sorted] produces: keys ascend. *)
Definition key_le (a b : A) : Prop := String.leb (key a) (key b) = true.

Lemma insert_by_perm (x : A) (l : list A) :
  Permutation (insert_by key x l) (x :: l).
Proof.
  induction l as [|y l IH]; simpl; auto.
  destruct (String.leb (key x) (key y)); auto.
  rewrite IH. apply perm_swap.
Qed.

Lemma sorted_perm (l : list A) : Permutation (sorted key l) l.
Proof.
  induction l as [|x l IH]; simpl; auto.
  rewrite insert_by_perm. now constructor.
Qed.

Lemma sorted_in (l : list A) (a : A) : In a (sorted key l) <-> In a l.
Proof.
  split; apply Permutation_in;
    [apply sorted_perm | apply Permutation_sym, sorted_perm].
Qed.

Lemma insert_by_sorted (x : A) (l : list A) :
  StronglySorted key_le l -> StronglySorted key_le (insert_by key x l).
Proof.
  induction 1 as [|y l Hs IH Hall]; simpl.
  - repeat constructor.
  - destruct (String.leb (key x) (key y)) eqn:E.
    + constructor; [now constructor|].
      constructor; [exact E|].
      eapply Forall_impl; [|exact Hall].
      intros z Hz. unfold key_le in *. eapply string_leb_trans; eauto.
    + constructor; [exact IH|].
      apply string_leb_false in E as [E _].
      eapply Permutation_Forall;
        [apply Permutation_sym, insert_by_perm|].
      constructor; assumption.
Qed.

Lemma sorted_sorted (l : list A) : StronglySorted key_le (sorted key l).
Proof.
  induction l as [|x l IH]; simpl; [constructor|].
  now apply insert_by_sorted.
Qed.

(** Stability: the elements of any one key keep their relative order. *)
Lemma insert_by_filter (p : A -> bool) (x : A) (l : list A) :
  (forall y, In y l -> p x = true -> p y = true ->
             String.leb (key x) (key y) = true) ->
  filter p (insert_by key x l) = filter p (x :: l).
Proof.
  induction l as [|y l IH]; intros H; simpl; auto.
  destruct (String.leb (key x) (key y)) eqn:E; simpl; auto.
  rewrite IH by (intros; apply H; simpl; auto).
  simpl. destruct (p x) eqn:Px, (p y) eqn:Py; auto.
  rewrite H in E; simpl; auto. discriminate.
Qed.

Lemma sorted_stable (k : string) (l : list A) :
  filter (fun a => String.eqb (key a) k) (sorted key l)
  = filter (fun a => String.eqb (key a) k) l.
Proof.
  induction l as [|x l IH]; simpl; auto.
  rewrite insert_by_filter.
  - simpl. now rewrite IH.
  - intros y _ Hx Hy.
    apply String.eqb_eq in Hx, Hy. rewrite Hx, Hy.
    apply string_leb_refl.
Qed.

(** Filtering commutes with sorting. *)
Lemma insert_by_filter_comm (p : A -> bool) (x : A) (l : list A) :
  StronglySorted key_le l ->
  filter p (insert_by key x l)
  = if p x then insert_by key x (filter p l) else filter p l.
Proof.
  induction 1 as [|y l Hs IH Hall]; simpl.
  - destruct (p x); reflexivity.
  - destruct (String.leb (key x) (key y)) eqn:E; simpl.
    + destruct (p x) eqn:Px; auto.
      destruct (p y) eqn:Py; simpl; [now rewrite E|].
      clear IH. induction l as [|z l IHl]; simpl; auto.
      inversion Hall; subst. inversion Hs; subst.
      destruct (p z); simpl.
      * replace (String.leb (key x) (key z)) with true; auto.
        symmetry. eapply string_leb_trans; eauto.
      * auto.
    + rewrite IH. destruct (p x), (p y); simpl; auto. now rewrite E.
Qed.

Lemma sorted_filter (p : A -> bool) (l : list A) :
  filter p (sorted key l) = sorted key (filter p l).
Proof.
  induction l as [|x l IH]; simpl; auto.
  rewrite insert_by_filter_comm by apply sorted_sorted.
  rewrite IH. destruct (p x); reflexivity.
Qed.

End Sorted.

Lemma opt_eqb_eq (a b : option Z) : opt_eqb a b = true <-> a = b.
Proof.
  destruct a as [x|], b as [y|]; simpl; split; intros H;
    try discriminate; try reflexivity.
  - apply Z.eqb_eq in H. now subst.
  - inversion H. apply Z.eqb_refl.
Qed.

Lemma opt_eqb_neq (a b : option Z) : opt_eqb a b = false <-> a <> b.
Proof.
  rewrite <- opt_eqb_eq. destruct (opt_eqb a b); split; congruence.
Qed.

Lemma py_not_nil (X : Type) (xs : list X) : py_not xs = true <-> xs = [].
Proof. destruct xs; simpl; split; congruence. Qed.

(** ** The constructor *)

(** C9: the constructor fails with [BadReportError], and builds no report,
    exactly when the quality list is empty; with any non-empty list it
    builds a report that has no county bulletins, no official totals and no
    warnings, whose auto-calculated total and undefined/imported bulletin
    are both empty placeholders for the report's date and state. *)
Theorem init_empty_fails_nonempty_succeeds
        (d p : Date) (s : State) (qualities : list ReportQuality.t) :
  (qualities = [] ->
   exists e, init d p s qualities = inl e) /\
  (qualities <> [] ->
   exists r, init d p s qualities = inr r
     /\ _county_bulletins r = []
     /\ _official_total_bulletins r = []
     /\ _warnings r = []
     /\ is_empty (_auto_calculated_total r) = true
     /\ is_empty (undefined_or_imported_cases_bulletin r) = true
     /\ _auto_calculated_total r = new_bulletin d s "Soma automática"
     /\ undefined_or_imported_cases_bulletin r
        = new_bulletin d s "Não encontrada"
     /\ _expected_qualities r = qualities
     /\ reference_date r = d /\ published_at r = p /\ report_state r = s).
Proof.
  split.
  - intros ->. eexists. reflexivity.
  - intros H. destruct qualities as [|q qs]; [congruence|].
    eexists. split; [reflexivity|]. repeat split.
Qed.

(** ** Cross-validation *)

(** C5: [total_bulletin] is the first official total whenever one is stored,
    whatever the auto-calculated total holds, and the auto-calculated total
    when none is. *)
Theorem total_bulletin_prefers_first_official (self : FullReportModel) :
  (forall first rest,
      _official_total_bulletins self = first :: rest ->
      forall auto, total_bulletin (set_total auto self) = first) /\
  (_official_total_bulletins self = [] ->
   total_bulletin self = _auto_calculated_total self).
Proof.
  split.
  - intros first rest H auto. unfold total_bulletin. simpl. now rewrite H.
  - intros H. unfold total_bulletin. now rewrite H.
Qed.

Lemma forallb_opt_eqb (X : Type) (f : X -> option Z) (a : option Z)
      (l : list X) :
  forallb (fun x => opt_eqb a (f x)) l = true
  <-> Forall (fun x => a = f x) l.
Proof.
  rewrite forallb_forall, Forall_forall.
  split; intros H x Hx; apply opt_eqb_eq; auto.
Qed.

(** C6: both checks answer [False] when no official total is stored;
    otherwise each answers [True] exactly when the auto-calculated count
    equals the count of every official total, so one official total that
    disagrees makes the check [False]. *)
Theorem check_totals_all_official_agree (self : FullReportModel) :
  let auto := _auto_calculated_total self in
  let official := _official_total_bulletins self in
  (official = [] ->
   check_total_death_cases self = false
   /\ check_total_confirmed_cases self = false) /\
  (official <> [] ->
   (check_total_death_cases self = true
    <-> Forall (fun o => deaths auto = deaths o) official)
   /\ (check_total_confirmed_cases self = true
       <-> Forall (fun o => confirmed_cases auto = confirmed_cases o)
             official)) /\
  (forall o, In o official -> deaths auto <> deaths o ->
             check_total_death_cases self = false) /\
  (forall o, In o official -> confirmed_cases auto <> confirmed_cases o ->
             check_total_confirmed_cases self = false).
Proof.
  intros auto official.
  unfold check_total_death_cases, check_total_confirmed_cases.
  fold auto official.
  split; [|split; [|split]].
  - intros ->. split; reflexivity.
  - intros H. destruct official as [|o os] eqn:E; [congruence|].
    cbv [py_not]. split; apply forallb_opt_eqb.
  - intros o Hin Hne. destruct (py_not official); [reflexivity|].
    apply not_true_is_false. rewrite forallb_opt_eqb, Forall_forall.
    intros H. apply Hne, H, Hin.
  - intros o Hin Hne. destruct (py_not official); [reflexivity|].
    apply not_true_is_false. rewrite forallb_opt_eqb, Forall_forall.
    intros H. apply Hne, H, Hin.
Qed.

(** ** Row export *)

(** C8: the rows are, in this order, one row for each non-empty county
    bulletin stored in the dictionary, the bulletins taken in ascending
    order of city (bulletins of one city name in the order the dictionary
    holds them, empty bulletins left out), then the row of the
    undefined/imported bulletin, empty or not, then the row of
    [total_bulletin]. *)
Theorem to_csv_rows_order (self : FullReportModel) :
  let non_empty := fun b : CountyBulletinModel => negb (is_empty b) in
  let stored := map snd (_county_bulletins self) in
  let counties := sorted city (filter non_empty stored) in
  county_bulletins self = stored
  /\ to_csv_rows self
     = map county_to_csv_row counties
         ++ [imported_to_csv_row (undefined_or_imported_cases_bulletin self);
             total_to_csv_row (total_bulletin self)]
  /\ StronglySorted (key_le city) counties
  /\ Permutation counties (filter non_empty stored)
  /\ (forall name,
         filter (fun b => String.eqb (city b) name) counties
         = filter (fun b => String.eqb (city b) name)
             (filter non_empty stored))
  /\ (forall b, In b counties
                <-> (exists k, In (k, b) (_county_bulletins self))
                    /\ is_empty b = false)
  /\ List.length (to_csv_rows self)
     = (List.length (filter non_empty stored) + 2)%nat
  /\ (exists rows,
         to_csv_rows self
         = rows ++ [imported_to_csv_row
                      (undefined_or_imported_cases_bulletin self);
                    total_to_csv_row (total_bulletin self)]).
Proof.
  intros non_empty stored counties.
  assert (E : to_csv_rows self
              = map county_to_csv_row counties
                  ++ [imported_to_csv_row
                        (undefined_or_imported_cases_bulletin self);
                      total_to_csv_row (total_bulletin self)]).
  { unfold to_csv_rows, counties, stored, county_bulletins, dict_values.
    rewrite sorted_filter. now rewrite <- app_assoc. }
  split; [reflexivity|].
  split; [exact E|].
  split; [apply sorted_sorted|].
  split; [apply sorted_perm|].
  split; [intros name; apply sorted_stable|].
  split; [|split].
  - intros b. unfold counties, stored.
    rewrite sorted_in, filter_In, in_map_iff.
    unfold non_empty. rewrite negb_true_iff.
    split.
    + intros [([k b'] & Hb & Hin) Hn]. simpl in Hb. subst b'.
      split; [now exists k|exact Hn].
    + intros [[k Hin] Hn]. split; [|exact Hn].
      exists (k, b). split; [reflexivity|exact Hin].
  - rewrite E, length_app, length_map. simpl.
    unfold counties.
    now rewrite (Permutation_length (sorted_perm city _)).
  - eexists. exact E.
Qed.

(** ** Warnings *)

(** A sorted list of strings without duplicates is determined by its
    elements, so the order in which a set is iterated does not show in
    [sorted]. *)
Lemma sorted_strings_unique (l1 l2 : list string) :
  StronglySorted (fun a b => String.leb a b = true) l1 ->
  StronglySorted (fun a b => String.leb a b = true) l2 ->
  NoDup l1 -> NoDup l2 ->
  (forall x, In x l1 <-> In x l2) ->
  l1 = l2.
Proof.
  revert l2. induction l1 as [|a l1 IH]; intros l2 S1 S2 N1 N2 E.
  - destruct l2 as [|b l2]; [reflexivity|].
    exfalso. apply (proj2 (E b)). simpl; auto.
  - destruct l2 as [|b l2].
    { exfalso. apply (proj1 (E a)). simpl; auto. }
    inversion S1 as [|? ? S1' A1]; subst.
    inversion S2 as [|? ? S2' A2]; subst.
    inversion N1 as [|? ? Na N1']; subst.
    inversion N2 as [|? ? Nb N2']; subst.
    rewrite Forall_forall in A1, A2.
    assert (a = b) as <-.
    { destruct (proj1 (E a) (or_introl eq_refl)) as [->|Ha]; [reflexivity|].
      destruct (proj2 (E b) (or_introl eq_refl)) as [->|Hb]; [reflexivity|].
      apply String.leb_antisym; auto. }
    f_equal. apply IH; auto.
    intros x. split; intros Hx.
    + destruct (proj1 (E x) (or_intror Hx)) as [<-|H]; [contradiction|auto].
    + destruct (proj2 (E x) (or_intror Hx)) as [<-|H]; [contradiction|auto].
Qed.

Lemma sorted_of_set (l1 l2 : list string) :
  NoDup l1 -> NoDup l2 -> (forall x, In x l1 <-> In x l2) ->
  sorted (fun s => s) l1 = sorted (fun s => s) l2.
Proof.
  intros N1 N2 E. apply sorted_strings_unique.
  - apply (sorted_sorted (fun s : string => s)).
  - apply (sorted_sorted (fun s : string => s)).
  - eapply Permutation_NoDup; [apply Permutation_sym, sorted_perm|exact N1].
  - eapply Permutation_NoDup; [apply Permutation_sym, sorted_perm|exact N2].
  - intros x. rewrite !sorted_in. apply E.
Qed.

Lemma py_set_in (x : string) (l : list string) : In x (py_set l) <-> In x l.
Proof.
  induction l as [|y l IH]; simpl; [tauto|].
  rewrite filter_In, IH, negb_true_iff, String.eqb_neq.
  destruct (String.eqb_spec y x); intuition congruence.
Qed.

Lemma py_set_nodup (l : list string) : NoDup (py_set l).
Proof.
  induction l as [|y l IH]; simpl; constructor.
  - rewrite filter_In, String.eqb_refl. intros [_ H]. discriminate.
  - now apply NoDup_filter.
Qed.

Lemma set_add_has (w : BulletinWarning) (s : list BulletinWarning)
      (k : string) :
  has_warning k (set_add w s)
  = has_warning k s || String.eqb k (slug w).
Proof.
  unfold set_add, has_warning, warning_eq.
  destruct (existsb _ s) eqn:E.
  - destruct (String.eqb_spec k (slug w)) as [->|]; [|now rewrite orb_false_r].
    now rewrite E.
  - rewrite existsb_app. simpl. now rewrite orb_false_r.
Qed.

Lemma set_add_present (w : BulletinWarning) (s : list BulletinWarning) :
  has_warning (slug w) s = true -> set_add w s = s.
Proof.
  unfold set_add, has_warning, warning_eq. now intros ->.
Qed.

Lemma add_warning_data (k : WarningType.t) (d : option Description)
      (self : FullReportModel) :
  add_warning k d self = set_warnings (_warnings (add_warning k d self)) self.
Proof. reflexivity. Qed.

Lemma add_warnings_data (ws : list (WarningType.t * option Description))
      (self : FullReportModel) :
  add_warnings ws self = set_warnings (_warnings (add_warnings ws self)) self.
Proof.
  revert self. induction ws as [|w ws IH]; intros self.
  - now destruct self.
  - unfold add_warnings in *. simpl. rewrite IH. now destruct self.
Qed.

Lemma detected_set_warnings (w : list BulletinWarning)
      (self : FullReportModel) :
  detected (set_warnings w self) = detected self.
Proof. reflexivity. Qed.

(** [_auto_detect_warnings] is the sequence of calls listed by [detected]. *)
Lemma auto_detect_runs_detected (self : FullReportModel) :
  _auto_detect_warnings self = add_warnings (detected self) self.
Proof.
  destruct self as [rd pa st und off cty auto q w].
  unfold _auto_detect_warnings, detected, add_warnings,
    has_undefined_or_imported_cases, total_bulletin,
    check_total_confirmed_cases, check_total_death_cases.
  simpl.
  repeat match goal with
         | |- context [if ?c then _ else _] =>
             lazymatch c with
             | context [if _ then _ else _] => fail
             | _ => destruct c eqn:?
             end; simpl
         end; reflexivity.
Qed.

Lemma has_warning_add_warnings
      (ws : list (WarningType.t * option Description))
      (self : FullReportModel) (k : string) :
  has_warning k (_warnings (add_warnings ws self))
  = has_warning k (_warnings self)
    || existsb (fun w => String.eqb k (slug_value (fst w))) ws.
Proof.
  revert self. induction ws as [|w ws IH]; intros self; simpl.
  - now rewrite orb_false_r.
  - unfold add_warnings in *. simpl. rewrite IH. simpl.
    rewrite set_add_has. simpl. now rewrite orb_assoc.
Qed.

Lemma add_warnings_present
      (ws : list (WarningType.t * option Description))
      (self : FullReportModel) :
  (forall w, In w ws ->
             has_warning (slug_value (fst w)) (_warnings self) = true) ->
  add_warnings ws self = self.
Proof.
  induction ws as [|w ws IH]; intros H; [reflexivity|].
  unfold add_warnings in *. simpl.
  unfold add_warning at 2. rewrite set_add_present by (apply H; simpl; auto).
  replace (set_warnings (_warnings self) self) with self by now destruct self.
  apply IH. intros w' Hw'. apply H. simpl; auto.
Qed.

(** Running the detection on its own result records nothing new. *)
Lemma auto_detect_idempotent (self : FullReportModel) :
  _auto_detect_warnings (_auto_detect_warnings self)
  = _auto_detect_warnings self.
Proof.
  rewrite (auto_detect_runs_detected (_auto_detect_warnings self)).
  rewrite !(auto_detect_runs_detected self).
  assert (D : detected (add_warnings (detected self) self) = detected self).
  { rewrite add_warnings_data. apply detected_set_warnings. }
  rewrite D.
  apply add_warnings_present.
  intros w Hw. rewrite has_warning_add_warnings.
  apply orb_true_iff. right. apply existsb_exists.
  exists w. split; [exact Hw|apply String.eqb_refl].
Qed.

Lemma string_app_nil (x : string) : (x ++ "")%string = x.
Proof. induction x as [|c x IH]; simpl; [reflexivity|now rewrite IH]. Qed.

(** [sep.join] behind a leading separator: every element comes with the
    separator in front of it, in order. *)
Lemma str_join_prefixed (sep : string) (l : list string) :
  l <> [] ->
  (sep ++ str_join sep l)%string
  = fold_right (fun k acc => (sep ++ k ++ acc)%string) "" l.
Proof.
  induction l as [|x l IH]; [congruence|]. intros _.
  destruct l as [|y l].
  - cbn [str_join fold_right]. now rewrite string_app_nil.
  - change (str_join sep (x :: y :: l))
      with (x ++ sep ++ str_join sep (y :: l))%string.
    rewrite IH by discriminate. reflexivity.
Qed.

Lemma set_add_absent (w : BulletinWarning) (s : list BulletinWarning) :
  has_warning (slug w) s = false -> set_add w s = s ++ [w].
Proof.
  unfold set_add, has_warning, warning_eq. now intros ->.
Qed.

(** C7: [warnings_slug] runs the detection and keeps its result as the
    report; the string is empty when no warning is recorded then, and
    otherwise [__] followed by the kinds of the recorded warnings, each
    once, in ascending order, joined by [__], in whatever order the set
    of kinds is iterated: the string is every kind with [__] in front of
    it, one after the other.  A second call on the report the first one
    leaves gives the same string and leaves the same report. *)
Theorem warnings_slug_sorted_deduplicated_stable (self : FullReportModel) :
  let detected_report := _auto_detect_warnings self in
  let kinds := sorted (fun s => s)
                 (py_set (map slug (_warnings detected_report))) in
  snd (warnings_slug self) = detected_report
  /\ (_warnings detected_report = [] -> fst (warnings_slug self) = "")
  /\ (_warnings detected_report <> [] ->
      fst (warnings_slug self) = ("__" ++ str_join "__" kinds)%string)
  /\ StronglySorted (fun a b => String.leb a b = true) kinds
  /\ NoDup kinds
  /\ (forall k, In k kinds
                <-> exists w, In w (_warnings detected_report) /\ slug w = k)
  /\ (forall order,
         NoDup order ->
         (forall k, In k order
                    <-> In k (map slug (_warnings detected_report))) ->
         sorted (fun s => s) order = kinds)
  /\ warnings_slug (snd (warnings_slug self)) = warnings_slug self
  /\ (kinds = [] <-> _warnings detected_report = [])
  /\ fst (warnings_slug self)
     = fold_right (fun k acc => ("__" ++ k ++ acc)%string) "" kinds
  /\ (forall a b rest,
         str_join "__" [] = ""
         /\ str_join "__" [a] = a
         /\ str_join "__" (a :: b :: rest)
            = (a ++ "__" ++ str_join "__" (b :: rest))%string).
Proof.
  intros detected_report kinds.
  assert (S : snd (warnings_slug self) = detected_report).
  { unfold warnings_slug. fold detected_report.
    now destruct (py_not (_warnings detected_report)). }
  assert (M : forall k, In k kinds
                        <-> exists w, In w (_warnings detected_report)
                                      /\ slug w = k).
  { intros k. unfold kinds. rewrite sorted_in, py_set_in, in_map_iff.
    split; intros [w [H1 H2]]; exists w; auto. }
  assert (K : kinds = [] <-> _warnings detected_report = []).
  { split.
    - intros E. destruct (_warnings detected_report) as [|w ws] eqn:W;
        [reflexivity|].
      exfalso. assert (I : In (slug w) kinds).
      { apply M. exists w. rewrite ?W. simpl. auto. }
      rewrite E in I. destruct I.
    - intros E. unfold kinds. rewrite E. reflexivity. }
  split; [exact S|].
  split; [|split; [|split; [|split; [|split; [|split; [|split;
    [|split; [|split]]]]]]]].
  - intros E. unfold warnings_slug. fold detected_report. now rewrite E.
  - intros E. unfold warnings_slug. fold detected_report.
    destruct (_warnings detected_report); [congruence|reflexivity].
  - apply (sorted_sorted (fun s : string => s)).
  - eapply Permutation_NoDup;
      [apply Permutation_sym, sorted_perm|apply py_set_nodup].
  - exact M.
  - intros order N E. unfold kinds. apply sorted_of_set.
    + exact N.
    + apply py_set_nodup.
    + intros k. rewrite py_set_in. apply E.
  - rewrite S. unfold warnings_slug at 1 2. unfold detected_report.
    now rewrite auto_detect_idempotent.
  - exact K.
  - unfold warnings_slug. fold detected_report.
    destruct (_warnings detected_report) as [|w ws] eqn:W.
    + rewrite (proj2 K eq_refl). reflexivity.
    + cbv [py_not fst]. fold kinds. apply str_join_prefixed.
      intros E. apply K in E. discriminate E.
  - intros a b rest. repeat split.
Qed.

(** ** Ingestion *)

Lemma sources_disagree_iff (e n : CountyBulletinModel) :
  sources_disagree e n = true
  <-> counts_differ (deaths e) (deaths n)
      \/ counts_differ (confirmed_cases e) (confirmed_cases n).
Proof.
  unfold sources_disagree, counts_differ, has_deaths, has_confirmed_cases.
  destruct (deaths e) as [de|], (deaths n) as [dn|],
    (confirmed_cases e) as [ce|], (confirmed_cases n) as [cn|]; simpl;
    rewrite ?orb_false_r, ?negb_true_iff, ?orb_true_iff, ?negb_true_iff,
      ?Z.eqb_neq;
    split;
    try (intros [H | H]; [left | right]; eauto; fail);
    try (intros H; (left + right); eauto; fail);
    try (intros [(x & y & H1 & H2 & H3) | (x & y & H1 & H2 & H3)];
         try discriminate; inversion H1; inversion H2; subst; auto; fail);
    try discriminate.
Qed.

(** C4: the merge-or-choose step.  Two value-equal bulletins give back the
    existing one and the report as it was.  Otherwise a SOURCES_DONT_MATCH
    warning naming both sources is added exactly when both bulletins report
    deaths, or both report confirmed cases, with different counts: the
    warning set then holds a warning of that kind (the new one at its end,
    unless one of the kind was there), and is the set as it was otherwise.
    With or without the warning, nothing else of the report changes and
    the bulletin returned is the existing one when it is complete, else the
    incoming one when that is complete, else the existing one with its
    missing counts filled from the incoming one. *)
Theorem merge_or_choose_steps
        (existent_bulletin new_bulletin : CountyBulletinModel)
        (self : FullReportModel) :
  let result :=
    _compare_county_bulletins_and_return_the_completest
      existent_bulletin new_bulletin self in
  let differ :=
    counts_differ (deaths existent_bulletin) (deaths new_bulletin)
    \/ counts_differ (confirmed_cases existent_bulletin)
         (confirmed_cases new_bulletin) in
  let merged := merge_data existent_bulletin new_bulletin in
  let kind := slug_value WarningType.SOURCES_DONT_MATCH in
  let warning :=
    mkWarning kind
      (Some (SourcesDontMatchText (sources existent_bulletin)
               (sources new_bulletin))) in
  (county_eq existent_bulletin new_bulletin = true ->
   result = (existent_bulletin, self))
  /\ (county_eq existent_bulletin new_bulletin = false ->
      (differ ->
       snd result
       = add_warning WarningType.SOURCES_DONT_MATCH
           (Some (SourcesDontMatchText (sources existent_bulletin)
                    (sources new_bulletin)))
           self)
      /\ (~ differ -> snd result = self)
      /\ fst result
         = (if is_complete existent_bulletin then existent_bulletin
            else if is_complete new_bulletin then new_bulletin
                 else merged))
  /\ confirmed_cases merged
     = match confirmed_cases existent_bulletin with
       | Some c => Some c
       | None => confirmed_cases new_bulletin
       end
  /\ deaths merged
     = match deaths existent_bulletin with
       | Some c => Some c
       | None => deaths new_bulletin
       end
  /\ city merged = city existent_bulletin
  /\ state merged = state existent_bulletin
  /\ date merged = date existent_bulletin
  /\ (county_eq existent_bulletin new_bulletin = false -> differ ->
      has_warning kind (_warnings (snd result)) = true
      /\ (exists w, In w (_warnings (snd result)) /\ slug w = kind)
      /\ (has_warning kind (_warnings self) = false ->
          _warnings (snd result) = _warnings self ++ [warning])
      /\ (has_warning kind (_warnings self) = true ->
          _warnings (snd result) = _warnings self))
  /\ (county_eq existent_bulletin new_bulletin = true \/ ~ differ ->
      _warnings (snd result) = _warnings self)
  /\ (exists w, snd result = set_warnings w self).
Proof.
  intros result differ merged kind warning.
  pose proof (sources_disagree_iff existent_bulletin new_bulletin) as D.
  fold differ in D.
  assert (R : snd result
              = if county_eq existent_bulletin new_bulletin then self
                else if sources_disagree existent_bulletin new_bulletin
                     then add_warning WarningType.SOURCES_DONT_MATCH
                            (Some (SourcesDontMatchText
                                     (sources existent_bulletin)
                                     (sources new_bulletin))) self
                     else self).
  { unfold result, _compare_county_bulletins_and_return_the_completest.
    destruct (county_eq existent_bulletin new_bulletin); [reflexivity|].
    destruct (sources_disagree existent_bulletin new_bulletin),
      (is_complete existent_bulletin), (is_complete new_bulletin);
      reflexivity. }
  assert (F : county_eq existent_bulletin new_bulletin = false ->
              fst result
              = (if is_complete existent_bulletin then existent_bulletin
                 else if is_complete new_bulletin then new_bulletin
                      else merged)).
  { intros Q.
    unfold result, _compare_county_bulletins_and_return_the_completest.
    rewrite Q.
    destruct (is_complete existent_bulletin);
      [|destruct (is_complete new_bulletin)]; reflexivity. }
  assert (A : _warnings
                (add_warning WarningType.SOURCES_DONT_MATCH
                   (Some (SourcesDontMatchText (sources existent_bulletin)
                            (sources new_bulletin))) self)
              = set_add warning (_warnings self)) by reflexivity.
  split.
  { intros Q.
    unfold result, _compare_county_bulletins_and_return_the_completest.
    now rewrite Q. }
  split.
  { intros Q. rewrite Q in R. split; [|split; [|exact (F Q)]].
    - intros H. apply D in H. now rewrite H in R.
    - intros N. destruct (sources_disagree existent_bulletin new_bulletin);
        [|exact R]. exfalso. apply N, D. reflexivity. }
  split; [|split; [|split; [|split; [|split]]]].
  1-5: unfold merged, merge_data, fill; simpl;
    destruct (confirmed_cases existent_bulletin),
      (deaths existent_bulletin); reflexivity.
  split; [|split].
  - intros Q H. apply D in H. rewrite Q, H in R. rewrite R, A.
    assert (P : has_warning kind (set_add warning (_warnings self)) = true).
    { rewrite set_add_has. simpl.
      unfold kind. rewrite String.eqb_refl. apply orb_true_r. }
    split; [exact P|]. split; [|split].
    + unfold has_warning in P. apply existsb_exists in P.
      destruct P as (w & Hw & E). exists w. split; [exact Hw|].
      symmetry. now apply String.eqb_eq.
    + intros B. now apply set_add_absent.
    + intros B. now apply set_add_present.
  - intros [Q | N]; rewrite R.
    + now rewrite Q.
    + destruct (county_eq existent_bulletin new_bulletin); [reflexivity|].
      destruct (sources_disagree existent_bulletin new_bulletin);
        [|reflexivity]. exfalso. apply N, D. reflexivity.
  - rewrite R.
    destruct (county_eq existent_bulletin new_bulletin);
      [exists (_warnings self); now destruct self|].
    destruct (sources_disagree existent_bulletin new_bulletin);
      [eexists; reflexivity|exists (_warnings self); now destruct self].
Qed.

(** *** The dictionary *)

Section DictFacts.
Variable V : Type.
Implicit Types (d : dict V) (k : Z) (v : V).

Lemma dict_get_none d k : dict_get k d = None <-> ~ In k (dict_keys d).
Proof.
  induction d as [|[k' v'] d IH]; simpl; [tauto|].
  destruct (Z.eqb_spec k k') as [->|N].
  - split; [discriminate|]. intros H. exfalso. auto.
  - rewrite IH. intuition congruence.
Qed.

Lemma dict_remove_absent d k : dict_get k d = None -> dict_remove k d = d.
Proof.
  induction d as [|[k' v'] d IH]; simpl; auto.
  destruct (Z.eqb k k'); [discriminate|].
  intros H. now rewrite IH.
Qed.

Lemma dict_set_absent d k v :
  dict_get k d = None -> dict_set k v d = d ++ [(k, v)].
Proof.
  induction d as [|[k' v'] d IH]; simpl; auto.
  destruct (Z.eqb k k'); [discriminate|].
  intros H. now rewrite IH.
Qed.

Lemma dict_get_set_same d k v : dict_get k (dict_set k v d) = Some v.
Proof.
  induction d as [|[k' v'] d IH]; simpl.
  - now rewrite Z.eqb_refl.
  - destruct (Z.eqb k k') eqn:E; simpl; [now rewrite Z.eqb_refl|].
    now rewrite E.
Qed.

Lemma dict_get_set_other d k k' v :
  k' <> k -> dict_get k' (dict_set k v d) = dict_get k' d.
Proof.
  intros N. induction d as [|[k0 v0] d IH]; simpl.
  - apply Z.eqb_neq in N. now rewrite N.
  - destruct (Z.eqb_spec k k0) as [->|]; simpl.
    + apply Z.eqb_neq in N. now rewrite N.
    + now rewrite IH.
Qed.

Lemma dict_get_remove_other d k k' :
  k' <> k -> dict_get k' (dict_remove k d) = dict_get k' d.
Proof.
  intros N. induction d as [|[k0 v0] d IH]; simpl; auto.
  destruct (Z.eqb_spec k k0) as [->|]; simpl.
  - apply Z.eqb_neq in N. now rewrite N.
  - now rewrite IH.
Qed.

Lemma dict_keys_remove d k k' :
  In k' (dict_keys (dict_remove k d)) -> In k' (dict_keys d).
Proof.
  induction d as [|[k0 v0] d IH]; simpl; auto.
  destruct (Z.eqb k k0); simpl; tauto.
Qed.

Lemma dict_remove_nodup d k :
  NoDup (dict_keys d) ->
  NoDup (dict_keys (dict_remove k d))
  /\ dict_get k (dict_remove k d) = None.
Proof.
  induction d as [|[k0 v0] d IH]; simpl; intros H.
  - split; [constructor|reflexivity].
  - inversion H as [|? ? Hn Hd]; subst.
    destruct (Z.eqb_spec k k0) as [->|N].
    + split; [exact Hd|]. now apply dict_get_none.
    + destruct (IH Hd) as [IH1 IH2]. simpl. split.
      * constructor; [|exact IH1].
        intros Hin. apply Hn. eapply dict_keys_remove; eauto.
      * apply Z.eqb_neq in N. now rewrite N.
Qed.

Lemma dict_append_nodup d k v :
  NoDup (dict_keys d) -> dict_get k d = None ->
  NoDup (dict_keys (d ++ [(k, v)])).
Proof.
  intros H N. unfold dict_keys. rewrite map_app. simpl.
  apply dict_get_none in N.
  apply NoDup_app; [exact H|repeat constructor; auto|].
  intros x Hx [<-|[]]. auto.
Qed.

End DictFacts.

Lemma sum_counts_app (f : BulletinModel -> option Z)
      (a b : list BulletinModel) :
  sum_counts f (a ++ b) = sum_counts f a + sum_counts f b.
Proof.
  induction a as [|x a IH]; simpl; [reflexivity|]. rewrite IH. lia.
Qed.

Lemma sum_counts_remove (f : BulletinModel -> option Z)
      (d : dict CountyBulletinModel) (k : Z) (e : CountyBulletinModel) :
  dict_get k d = Some e ->
  sum_counts f (map county_data (dict_values d))
  = count (f e)
    + sum_counts f (map county_data (dict_values (dict_remove k d))).
Proof.
  induction d as [|[k0 v0] d IH]; simpl; [discriminate|].
  destruct (Z.eqb k k0).
  - intros H. inversion H. reflexivity.
  - intros H. simpl. rewrite (IH H). lia.
Qed.

(** *** The running total *)

Lemma increase_total_confirmed (b t : BulletinModel) :
  confirmed_cases (increase_total b t)
  = match confirmed_cases b with
    | Some c => Some (count (confirmed_cases t) + c)
    | None => confirmed_cases t
    end.
Proof.
  unfold increase_total.
  destruct (confirmed_cases b), (deaths b); reflexivity.
Qed.

Lemma increase_total_deaths (b t : BulletinModel) :
  deaths (increase_total b t)
  = match deaths b with
    | Some c => Some (count (deaths t) + c)
    | None => deaths t
    end.
Proof.
  unfold increase_total.
  destruct (confirmed_cases b), (deaths b); reflexivity.
Qed.

Lemma decrease_total_confirmed (b t : BulletinModel) :
  confirmed_cases (decrease_total b t)
  = match confirmed_cases b with
    | Some c => Some (count (confirmed_cases t) - c)
    | None => confirmed_cases t
    end.
Proof.
  unfold decrease_total.
  destruct (confirmed_cases b), (deaths b); reflexivity.
Qed.

Lemma decrease_total_deaths (b t : BulletinModel) :
  deaths (decrease_total b t)
  = match deaths b with
    | Some c => Some (count (deaths t) - c)
    | None => deaths t
    end.
Proof.
  unfold decrease_total.
  destruct (confirmed_cases b), (deaths b); reflexivity.
Qed.

Lemma count_increase_total (b t : BulletinModel) :
  count (confirmed_cases (increase_total b t))
  = count (confirmed_cases t) + count (confirmed_cases b)
  /\ count (deaths (increase_total b t))
     = count (deaths t) + count (deaths b).
Proof.
  rewrite increase_total_confirmed, increase_total_deaths.
  destruct (confirmed_cases b), (deaths b); simpl; lia.
Qed.

Lemma count_decrease_total (b t : BulletinModel) :
  count (confirmed_cases (decrease_total b t))
  = count (confirmed_cases t) - count (confirmed_cases b)
  /\ count (deaths (decrease_total b t))
     = count (deaths t) - count (deaths b).
Proof.
  rewrite decrease_total_confirmed, decrease_total_deaths.
  destruct (confirmed_cases b), (deaths b); simpl; lia.
Qed.

(** The merge-or-choose step touches nothing but the warnings. *)
Lemma compare_result (e n : CountyBulletinModel) (self : FullReportModel) :
  exists w,
    _compare_county_bulletins_and_return_the_completest e n self
    = (completest e n, set_warnings w self).
Proof.
  unfold _compare_county_bulletins_and_return_the_completest, completest.
  destruct (county_eq e n).
  - exists (_warnings self). now destruct self.
  - destruct (sources_disagree e n).
    + eexists. unfold add_warning.
      destruct (is_complete e); [|destruct (is_complete n)]; reflexivity.
    + exists (_warnings self).
      destruct (is_complete e); [|destruct (is_complete n)];
        now destruct self.
Qed.

(** The county branch of [add_new_bulletin], by what the key maps to. *)
Lemma add_county_new (b : CountyBulletinModel) (self : FullReportModel) :
  dict_get (hash b) (_county_bulletins self) = None ->
  add_new_bulletin (County b) self
  = set_total (increase_total b (_auto_calculated_total self))
      (set_county (_county_bulletins self ++ [(hash b, b)]) self).
Proof.
  intros H. unfold add_new_bulletin, _pop_county_bulletin, dict_pop.
  rewrite H. simpl.
  rewrite (dict_remove_absent _ _ H), (dict_set_absent _ _ _ H).
  reflexivity.
Qed.

Lemma add_county_existing (b e : CountyBulletinModel)
      (self : FullReportModel) :
  dict_get (hash b) (_county_bulletins self) = Some e ->
  exists w,
    add_new_bulletin (County b) self
    = set_warnings w
        (set_total
           (increase_total (completest e b)
              (decrease_total e (_auto_calculated_total self)))
           (set_county
              (dict_set (hash b) (completest e b)
                 (dict_remove (hash b) (_county_bulletins self)))
              self)).
Proof.
  intros H. unfold add_new_bulletin, _pop_county_bulletin, dict_pop.
  rewrite H. simpl.
  match goal with
  | |- context [_compare_county_bulletins_and_return_the_completest e b ?r] =>
      destruct (compare_result e b r) as [w ->]
  end.
  exists w. reflexivity.
Qed.

(** C2: an [ImportedUndefinedBulletinModel] takes the place of the stored
    undefined/imported bulletin whatever that was; the auto-calculated
    total gets the incoming confirmed cases and deaths added, each only if
    present, and nothing of the previous occupant is subtracted: the new
    total is the same whichever bulletin was stored before.  Nothing else
    of the report changes. *)
Theorem imported_bulletin_replaces_without_subtracting
        (bulletin : ImportedUndefinedBulletinModel)
        (self : FullReportModel) :
  let after := add_new_bulletin (ImportedUndefined bulletin) self in
  let total := _auto_calculated_total self in
  undefined_or_imported_cases_bulletin after = bulletin
  /\ confirmed_cases (_auto_calculated_total after)
     = match confirmed_cases bulletin with
       | Some c => Some (count (confirmed_cases total) + c)
       | None => confirmed_cases total
       end
  /\ deaths (_auto_calculated_total after)
     = match deaths bulletin with
       | Some d => Some (count (deaths total) + d)
       | None => deaths total
       end
  /\ count (confirmed_cases (_auto_calculated_total after))
     = count (confirmed_cases total) + count (confirmed_cases bulletin)
  /\ count (deaths (_auto_calculated_total after))
     = count (deaths total) + count (deaths bulletin)
  /\ (forall previous,
         _auto_calculated_total
           (add_new_bulletin (ImportedUndefined bulletin)
              (set_undefined previous self))
         = _auto_calculated_total after)
  /\ _county_bulletins after = _county_bulletins self
  /\ _official_total_bulletins after = _official_total_bulletins self
  /\ _warnings after = _warnings self
  /\ _expected_qualities after = _expected_qualities self.
Proof.
  intros after total. unfold after, total, add_new_bulletin. simpl.
  rewrite increase_total_confirmed, increase_total_deaths.
  repeat split.
  - destruct (confirmed_cases bulletin); simpl; lia.
  - destruct (deaths bulletin); simpl; lia.
Qed.

(** *** The invariant of the running total *)

Lemma add_county_keeps_invariant (b : CountyBulletinModel)
      (self : FullReportModel) :
  keys_unique self -> total_is_sum self ->
  keys_unique (add_new_bulletin (County b) self)
  /\ total_is_sum (add_new_bulletin (County b) self).
Proof.
  unfold keys_unique, total_is_sum, contributed, county_bulletins.
  intros U [Hc Hd].
  destruct (dict_get (hash b) (_county_bulletins self)) as [e|] eqn:G.
  - destruct (add_county_existing b self G) as [w ->]. simpl.
    destruct (@dict_remove_nodup _ (_county_bulletins self) (hash b) U)
      as [U' G'].
    rewrite (dict_set_absent _ _ _ G').
    split; [now apply dict_append_nodup|].
    unfold dict_values. rewrite !map_app, !sum_counts_app. simpl.
    pose proof (sum_counts_remove confirmed_cases _ _ G) as Sc.
    pose proof (sum_counts_remove deaths _ _ G) as Sd.
    unfold dict_values in Sc, Sd, Hc, Hd.
    destruct (count_increase_total (completest e b)
                (decrease_total e (_auto_calculated_total self)))
      as [-> ->].
    destruct (count_decrease_total e (_auto_calculated_total self))
      as [-> ->].
    lia.
  - rewrite (add_county_new b self G). simpl.
    split; [now apply dict_append_nodup|].
    unfold dict_values. rewrite !map_app, !sum_counts_app. simpl.
    destruct (count_increase_total b (_auto_calculated_total self))
      as [-> ->].
    unfold dict_values in Hc, Hd. lia.
Qed.

Lemma add_imported_keeps_invariant (b : ImportedUndefinedBulletinModel)
      (self : FullReportModel) :
  is_empty (undefined_or_imported_cases_bulletin self) = true ->
  keys_unique self -> total_is_sum self ->
  keys_unique (add_new_bulletin (ImportedUndefined b) self)
  /\ total_is_sum (add_new_bulletin (ImportedUndefined b) self).
Proof.
  unfold keys_unique, total_is_sum, contributed, county_bulletins,
    is_empty, has_confirmed_cases, has_deaths.
  intros E U [Hc Hd]. simpl. split; [exact U|].
  destruct (count_increase_total b (_auto_calculated_total self))
    as [-> ->].
  destruct (confirmed_cases (undefined_or_imported_cases_bulletin self));
    [discriminate|].
  destruct (deaths (undefined_or_imported_cases_bulletin self));
    [discriminate|].
  simpl in Hc, Hd. lia.
Qed.

Lemma add_other_keeps_report (bulletin : Bulletin) (self : FullReportModel) :
  (forall b, bulletin <> County b) ->
  (forall b, bulletin <> ImportedUndefined b) ->
  _county_bulletins (add_new_bulletin bulletin self) = _county_bulletins self
  /\ _auto_calculated_total (add_new_bulletin bulletin self)
     = _auto_calculated_total self
  /\ undefined_or_imported_cases_bulletin (add_new_bulletin bulletin self)
     = undefined_or_imported_cases_bulletin self.
Proof.
  intros H1 H2. destruct bulletin as [b|b|b|]; simpl.
  - now destruct (H1 b).
  - now destruct (H2 b).
  - destruct (negb (is_empty b)); repeat split.
  - repeat split.
Qed.

Lemma add_county_undefined (b : CountyBulletinModel) (self : FullReportModel) :
  undefined_or_imported_cases_bulletin (add_new_bulletin (County b) self)
  = undefined_or_imported_cases_bulletin self.
Proof.
  destruct (dict_get (hash b) (_county_bulletins self)) as [e|] eqn:G.
  - destruct (add_county_existing b self G) as [w ->]. reflexivity.
  - rewrite (add_county_new b self G). reflexivity.
Qed.

Lemma ingest_cons (b : Bulletin) (bs : list Bulletin) (self : FullReportModel) :
  ingest (b :: bs) self = ingest bs (add_new_bulletin b self).
Proof. reflexivity. Qed.

(** Without an undefined/imported bulletin in the sequence the invariant
    is kept, and so is the stored undefined/imported bulletin. *)
Lemma ingest_no_imported (bs : list Bulletin) (self : FullReportModel) :
  imported_count bs = 0%nat ->
  keys_unique self -> total_is_sum self ->
  keys_unique (ingest bs self) /\ total_is_sum (ingest bs self)
  /\ undefined_or_imported_cases_bulletin (ingest bs self)
     = undefined_or_imported_cases_bulletin self.
Proof.
  revert self. induction bs as [|b bs IH]; intros self N U T.
  - simpl. auto.
  - rewrite ingest_cons. destruct b as [c|i|t|].
    + destruct (add_county_keeps_invariant c U T) as [U' T'].
      destruct (IH _ N U' T') as (A & B & C).
      rewrite C, add_county_undefined. auto.
    + discriminate N.
    + assert (K : forall r, keys_unique (add_new_bulletin (StateTotal t) r)
                            = keys_unique r
                            /\ total_is_sum (add_new_bulletin (StateTotal t) r)
                               = total_is_sum r
                            /\ undefined_or_imported_cases_bulletin
                                 (add_new_bulletin (StateTotal t) r)
                               = undefined_or_imported_cases_bulletin r).
      { intros r. simpl. destruct (negb (is_empty t)); repeat split. }
      destruct (K self) as (K1 & K2 & K3).
      rewrite <- K1 in U. rewrite <- K2 in T.
      destruct (IH _ N U T) as (A & B & C).
      rewrite C, K3. auto.
    + apply (IH self N U T).
Qed.

(** The invariant is kept by every sequence that holds at most one
    undefined/imported bulletin, when the stored one is still empty. *)
Lemma ingest_one_imported (bs : list Bulletin) (self : FullReportModel) :
  (imported_count bs <= 1)%nat ->
  is_empty (undefined_or_imported_cases_bulletin self) = true ->
  keys_unique self -> total_is_sum self ->
  keys_unique (ingest bs self) /\ total_is_sum (ingest bs self).
Proof.
  revert self. induction bs as [|b bs IH]; intros self N E U T.
  - simpl. auto.
  - rewrite ingest_cons. destruct b as [c|i|t|].
    + destruct (add_county_keeps_invariant c U T) as [U' T'].
      apply IH; auto. now rewrite add_county_undefined.
    + destruct (add_imported_keeps_invariant i E U T) as [U' T'].
      assert (N0 : imported_count bs = 0%nat).
      { unfold imported_count in *. simpl in N. lia. }
      destruct (ingest_no_imported bs N0 U' T') as (A & B & _). auto.
    + apply IH; auto; simpl; destruct (negb (is_empty t)); auto.
    + apply IH; auto.
Qed.

Lemma init_invariant (d p : Date) (s : State)
      (qualities : list ReportQuality.t) (r : FullReportModel) :
  init d p s qualities = inr r ->
  keys_unique r /\ total_is_sum r
  /\ is_empty (undefined_or_imported_cases_bulletin r) = true
  /\ _county_bulletins r = [] /\ _warnings r = []
  /\ _auto_calculated_total r = new_bulletin d s "Soma automática"
  /\ _expected_qualities r = qualities.
Proof.
  unfold init. destruct (py_not qualities); [discriminate|].
  intros H. inversion H. subst r. clear H.
  unfold keys_unique, total_is_sum, contributed. simpl.
  repeat split. constructor.
Qed.

(** From a new report, every sequence of calls that holds at most one
    undefined/imported bulletin leaves the total equal to the sum. *)
Lemma ingest_from_init_total_is_sum (d p : Date) (s : State)
      (qualities : list ReportQuality.t) (r : FullReportModel)
      (bs : list Bulletin) :
  init d p s qualities = inr r ->
  (imported_count bs <= 1)%nat ->
  total_is_sum (ingest bs r).
Proof.
  intros I N. destruct (init_invariant _ _ _ _ I) as (U & T & E & _).
  now apply ingest_one_imported.
Qed.

(** C1 (violated by the code): on a new report, two calls with an
    undefined/imported bulletin of one confirmed case each leave an
    auto-calculated total of two confirmed cases, while the bulletins the
    report holds (no county bulletin and the second undefined/imported one)
    add up to one. *)
Theorem second_imported_bulletin_is_counted_twice
        (d p : Date) (s : State) (q : ReportQuality.t)
        (qs : list ReportQuality.t) :
  let bulletin := mkBulletin d s (sources_of "fonte") (Some 1) None in
  exists r,
    init d p s (q :: qs) = inr r
    /\ let after :=
         ingest [ImportedUndefined bulletin; ImportedUndefined bulletin] r in
       confirmed_cases (_auto_calculated_total after) = Some 2
       /\ county_bulletins after = []
       /\ undefined_or_imported_cases_bulletin after = bulletin
       /\ contributed confirmed_cases after = 1
       /\ (total_is_sum after -> False).
Proof.
  intros bulletin. eexists. split; [reflexivity|].
  simpl. repeat split.
  unfold total_is_sum, contributed. simpl. intros [H _]. discriminate H.
Qed.

Lemma compare_fst (e n : CountyBulletinModel) (self : FullReportModel) :
  fst (_compare_county_bulletins_and_return_the_completest e n self)
  = completest e n.
Proof. destruct (compare_result e n self) as [w ->]. reflexivity. Qed.

(** The bulletin returned keeps every count the existing one has. *)
Lemma completest_keeps_counts (e n : CountyBulletinModel) :
  (confirmed_cases (completest e n) = None -> confirmed_cases e = None)
  /\ (deaths (completest e n) = None -> deaths e = None).
Proof.
  unfold completest, is_complete, has_confirmed_cases, has_deaths.
  destruct (county_eq e n); [auto|].
  destruct (confirmed_cases e) as [ce|] eqn:Ce,
    (deaths e) as [de|] eqn:De; simpl; auto;
    destruct (confirmed_cases n) as [cn|] eqn:Cn,
      (deaths n) as [dn|] eqn:Dn; simpl;
    rewrite ?Ce, ?De, ?Cn, ?Dn; split; intros H; auto; discriminate.
Qed.

(** C3: a county bulletin whose key is already in the dictionary.  The
    stored bulletin is taken out and each count it has is subtracted from
    the auto-calculated total; the bulletin chosen by the merge-or-choose
    step is stored under the key and each count it has is added.  On a new
    report, a first bulletin followed by a second one of the same key leaves
    the dictionary with the chosen bulletin alone and a total equal to its
    counts, not to the sum of the two bulletins' counts. *)
Theorem county_bulletin_of_stored_key_replaces
        (incoming : CountyBulletinModel) :
  (forall (self : FullReportModel) (existent : CountyBulletinModel),
      dict_get (hash incoming) (_county_bulletins self) = Some existent ->
      let total := _auto_calculated_total self in
      let popped := _pop_county_bulletin (hash incoming) self in
      let result :=
        fst (_compare_county_bulletins_and_return_the_completest
               existent incoming (snd popped)) in
      let after := add_new_bulletin (County incoming) self in
      fst popped = Some existent
      /\ confirmed_cases (_auto_calculated_total (snd popped))
         = match confirmed_cases existent with
           | Some c => Some (count (confirmed_cases total) - c)
           | None => confirmed_cases total
           end
      /\ deaths (_auto_calculated_total (snd popped))
         = match deaths existent with
           | Some c => Some (count (deaths total) - c)
           | None => deaths total
           end
      /\ dict_get (hash incoming) (_county_bulletins after) = Some result
      /\ (forall k, k <> hash incoming ->
                    dict_get k (_county_bulletins after)
                    = dict_get k (_county_bulletins self))
      /\ confirmed_cases (_auto_calculated_total after)
         = match confirmed_cases result with
           | Some c =>
               Some (count (confirmed_cases
                              (_auto_calculated_total (snd popped))) + c)
           | None => confirmed_cases (_auto_calculated_total (snd popped))
           end
      /\ deaths (_auto_calculated_total after)
         = match deaths result with
           | Some c =>
               Some (count (deaths (_auto_calculated_total (snd popped)))
                     + c)
           | None => deaths (_auto_calculated_total (snd popped))
           end
      /\ count (confirmed_cases (_auto_calculated_total after))
         = count (confirmed_cases total) - count (confirmed_cases existent)
           + count (confirmed_cases result)
      /\ count (deaths (_auto_calculated_total after))
         = count (deaths total) - count (deaths existent)
           + count (deaths result))
  /\ (forall (d p : Date) (s : State) (qualities : list ReportQuality.t)
             (r : FullReportModel) (first : CountyBulletinModel),
         init d p s qualities = inr r ->
         hash first = hash incoming ->
         let stored := add_new_bulletin (County first) r in
         let result :=
           fst (_compare_county_bulletins_and_return_the_completest
                  first incoming stored) in
         let after := add_new_bulletin (County incoming) stored in
         _county_bulletins after = [(hash incoming, result)]
         /\ confirmed_cases (_auto_calculated_total after)
            = confirmed_cases result
         /\ deaths (_auto_calculated_total after) = deaths result
         /\ (forall a b,
                confirmed_cases first = Some a ->
                confirmed_cases incoming = Some b ->
                a <> 0 -> b <> 0 ->
                confirmed_cases (_auto_calculated_total after)
                <> Some (a + b))
         /\ (forall a b,
                deaths first = Some a -> deaths incoming = Some b ->
                a <> 0 -> b <> 0 ->
                deaths (_auto_calculated_total after) <> Some (a + b))).
Proof.
  split.
  - intros self existent G total popped result after.
    unfold result. rewrite compare_fst.
    unfold after. destruct (add_county_existing incoming self G) as [w ->].
    unfold popped, _pop_county_bulletin, dict_pop. rewrite G. simpl.
    rewrite decrease_total_confirmed, decrease_total_deaths,
      increase_total_confirmed, increase_total_deaths,
      decrease_total_confirmed, decrease_total_deaths.
    fold total.
    split; [reflexivity|]. split; [reflexivity|]. split; [reflexivity|].
    split; [apply dict_get_set_same|].
    split.
    { intros k N. rewrite dict_get_set_other by exact N.
      now apply dict_get_remove_other. }
    split; [reflexivity|]. split; [reflexivity|].
    destruct (confirmed_cases (completest existent incoming)),
      (deaths (completest existent incoming)),
      (confirmed_cases existent), (deaths existent); simpl; lia.
  - intros d p s qualities r first I K stored result after.
    destruct (init_invariant _ _ _ _ I) as (_ & _ & _ & C & _ & T & _).
    assert (G0 : dict_get (hash first) (_county_bulletins r) = None)
      by now rewrite C.
    assert (S : stored
                = set_total (increase_total first (_auto_calculated_total r))
                    (set_county [(hash incoming, first)] r)).
    { unfold stored. rewrite (add_county_new first r G0), C, K.
      reflexivity. }
    assert (G : dict_get (hash incoming) (_county_bulletins stored)
                = Some first).
    { rewrite S. simpl. now rewrite Z.eqb_refl. }
    unfold result. rewrite compare_fst.
    unfold after. destruct (add_county_existing incoming stored G) as [w ->].
    rewrite S. simpl. rewrite Z.eqb_refl. simpl.
    rewrite increase_total_confirmed, increase_total_deaths,
      decrease_total_confirmed, decrease_total_deaths,
      increase_total_confirmed, increase_total_deaths.
    rewrite T. simpl.
    destruct (completest_keeps_counts first incoming) as [Kc Kd].
    assert (Vc : forall a b, confirmed_cases first = Some a ->
                             confirmed_cases incoming = Some b ->
                             confirmed_cases (completest first incoming)
                             = Some a
                             \/ confirmed_cases (completest first incoming)
                                = Some b).
    { intros a b Ha Hb. unfold completest, merge_data, fill.
      destruct (county_eq first incoming); auto.
      destruct (is_complete first); auto.
      destruct (is_complete incoming); auto.
      simpl. rewrite Ha. auto. }
    assert (Vd : forall a b, deaths first = Some a ->
                             deaths incoming = Some b ->
                             deaths (completest first incoming) = Some a
                             \/ deaths (completest first incoming) = Some b).
    { intros a b Ha Hb. unfold completest, merge_data, fill.
      destruct (county_eq first incoming); auto.
      destruct (is_complete first); auto.
      destruct (is_complete incoming); auto.
      simpl. rewrite Ha. auto. }
    split; [reflexivity|].
    split; [|split; [|split]].
    + destruct (confirmed_cases (completest first incoming)) as [c|] eqn:E.
      * destruct (confirmed_cases first); simpl; f_equal; lia.
      * now rewrite (Kc eq_refl).
    + destruct (deaths (completest first incoming)) as [c|] eqn:E.
      * destruct (deaths first); simpl; f_equal; lia.
      * now rewrite (Kd eq_refl).
    + intros a b Ha Hb Na Nb.
      destruct (Vc a b Ha Hb) as [E | E]; rewrite E, Ha; simpl;
        intros H; inversion H; lia.
    + intros a b Ha Hb Na Nb.
      destruct (Vd a b Ha Hb) as [E | E]; rewrite E, Ha; simpl;
        intros H; inversion H; lia.
Qed.



(** ** Further properties of the ingestion *)

Lemma add_county_dict (b : CountyBulletinModel) (self : FullReportModel) :
  keys_unique self ->
  _county_bulletins (add_new_bulletin (County b) self)
  = dict_remove (hash b) (_county_bulletins self)
      ++ [(hash b,
           match dict_get (hash b) (_county_bulletins self) with
           | Some e => completest e b
           | None => b
           end)].
Proof.
  unfold keys_unique. intros U.
  destruct (dict_get (hash b) (_county_bulletins self)) as [e|] eqn:G.
  - destruct (add_county_existing b self G) as [w ->]. simpl.
    destruct (@dict_remove_nodup _ (_county_bulletins self) (hash b) U)
      as [_ G'].
    apply dict_set_absent, G'.
  - rewrite (add_county_new b self G). simpl.
    now rewrite (dict_remove_absent _ _ G).
Qed.

Lemma add_keeps_keys_unique (b : Bulletin) (self : FullReportModel) :
  keys_unique self -> keys_unique (add_new_bulletin b self).
Proof.
  intros U. destruct b as [c|i|t|].
  - unfold keys_unique. rewrite (add_county_dict c U).
    destruct (@dict_remove_nodup _ (_county_bulletins self) (hash c) U)
      as [U' G'].
    now apply dict_append_nodup.
  - exact U.
  - simpl. destruct (negb (is_empty t)); exact U.
  - exact U.
Qed.

(** X1: the dictionary never comes to hold two county bulletins under one
    key, whatever is ingested. *)
Theorem county_keys_stay_unique (bs : list Bulletin)
        (self : FullReportModel) :
  keys_unique self -> keys_unique (ingest bs self).
Proof.
  revert self. induction bs as [|b bs IH]; intros self U; [exact U|].
  rewrite ingest_cons. apply IH, add_keeps_keys_unique, U.
Qed.

(** X2: a county bulletin always ends up as the last entry of the
    dictionary, under its key: an entry already there under that key is
    taken out first, and the other entries keep their order.  What is
    stored is the incoming bulletin, or the outcome of the merge-or-choose
    step when the key was there. *)
Theorem county_bulletin_is_stored_last (b : CountyBulletinModel)
        (self : FullReportModel) :
  keys_unique self ->
  let after := add_new_bulletin (County b) self in
  let stored :=
    match dict_get (hash b) (_county_bulletins self) with
    | Some e =>
        fst (_compare_county_bulletins_and_return_the_completest e b self)
    | None => b
    end in
  _county_bulletins after
  = dict_remove (hash b) (_county_bulletins self) ++ [(hash b, stored)]
  /\ dict_get (hash b) (_county_bulletins after) = Some stored
  /\ (forall k, k <> hash b ->
                dict_get k (_county_bulletins after)
                = dict_get k (_county_bulletins self)).
Proof.
  intros U after stored.
  assert (E : _county_bulletins after
              = dict_remove (hash b) (_county_bulletins self)
                  ++ [(hash b, stored)]).
  { unfold after, stored. rewrite (add_county_dict b U).
    destruct (dict_get (hash b) (_county_bulletins self));
      [now rewrite compare_fst|reflexivity]. }
  destruct (@dict_remove_nodup _ (_county_bulletins self) (hash b) U)
    as [_ G'].
  split; [exact E|]. rewrite E.
  rewrite <- (dict_set_absent _ _ stored G').
  split; [apply dict_get_set_same|].
  intros k N. rewrite dict_get_set_other by exact N.
  now apply dict_get_remove_other.
Qed.

(** X3: a complete county bulletin is never replaced: a later bulletin of
    the same key, whatever it holds, leaves it stored as it is and leaves
    both counts of the auto-calculated total at their value. *)
Theorem complete_county_bulletin_is_kept (b e : CountyBulletinModel)
        (self : FullReportModel) :
  dict_get (hash b) (_county_bulletins self) = Some e ->
  is_complete e = true ->
  let after := add_new_bulletin (County b) self in
  dict_get (hash b) (_county_bulletins after) = Some e
  /\ count (confirmed_cases (_auto_calculated_total after))
     = count (confirmed_cases (_auto_calculated_total self))
  /\ count (deaths (_auto_calculated_total after))
     = count (deaths (_auto_calculated_total self)).
Proof.
  intros G C after. unfold after.
  destruct (add_county_existing b self G) as [w ->]. simpl.
  assert (K : completest e b = e).
  { unfold completest. rewrite C. now destruct (county_eq e b). }
  rewrite K. split; [apply dict_get_set_same|].
  destruct (count_increase_total e
              (decrease_total e (_auto_calculated_total self))) as [-> ->].
  destruct (count_decrease_total e (_auto_calculated_total self))
    as [-> ->].
  lia.
Qed.

(** X4: a bulletin of a key that is already stored never loses a count:
    what is stored afterwards has every count the stored bulletin had and,
    unless the two bulletins are value-equal, every count the incoming one
    has. *)
Theorem collision_never_loses_a_count (b e : CountyBulletinModel)
        (self : FullReportModel) :
  dict_get (hash b) (_county_bulletins self) = Some e ->
  exists stored,
    dict_get (hash b)
      (_county_bulletins (add_new_bulletin (County b) self)) = Some stored
    /\ (has_confirmed_cases e = true -> has_confirmed_cases stored = true)
    /\ (has_deaths e = true -> has_deaths stored = true)
    /\ (county_eq e b = false ->
        has_confirmed_cases stored
        = has_confirmed_cases e || has_confirmed_cases b
        /\ has_deaths stored = has_deaths e || has_deaths b).
Proof.
  intros G. exists (completest e b).
  destruct (add_county_existing b self G) as [w ->]. simpl.
  split; [apply dict_get_set_same|].
  unfold completest, is_complete, merge_data, fill, has_confirmed_cases,
    has_deaths.
  destruct (county_eq e b);
    destruct (confirmed_cases e) as [ce|] eqn:Ce,
      (deaths e) as [de|] eqn:De,
      (confirmed_cases b) as [cb|] eqn:Cb,
      (deaths b) as [db|] eqn:Db; simpl;
    rewrite ?Ce, ?De, ?Cb, ?Db; repeat split; intros; congruence.
Qed.

Lemma add_official (b : Bulletin) (self : FullReportModel) :
  _official_total_bulletins (add_new_bulletin b self)
  = _official_total_bulletins self ++ official_of [b].
Proof.
  destruct b as [c|i|t|]; simpl.
  - destruct (dict_get (hash c) (_county_bulletins self)) as [e|] eqn:G.
    + destruct (add_county_existing c self G) as [w E].
      simpl in E. rewrite E. simpl. now rewrite app_nil_r.
    + pose proof (add_county_new c self G) as E.
      simpl in E. rewrite E. simpl. now rewrite app_nil_r.
  - now rewrite app_nil_r.
  - destruct (negb (is_empty t)); simpl; now rewrite ?app_nil_r.
  - now rewrite app_nil_r.
Qed.

Lemma official_ingest (bs : list Bulletin) (self : FullReportModel) :
  _official_total_bulletins (ingest bs self)
  = _official_total_bulletins self ++ official_of bs.
Proof.
  revert self. induction bs as [|b bs IH]; intros self.
  - simpl. now rewrite app_nil_r.
  - rewrite ingest_cons, IH, add_official, <- app_assoc.
    f_equal. unfold official_of. simpl. now rewrite app_nil_r.
Qed.

(** X5: the official totals of a report are the non-empty state totals
    that were ingested, in the order of their ingestion; empty state totals
    and bulletins of the other classes add none, and no ingestion takes one
    away. *)
Theorem official_totals_in_ingestion_order (bs : list Bulletin)
        (self : FullReportModel) :
  _official_total_bulletins (ingest bs self)
  = _official_total_bulletins self ++ official_of bs
  /\ (forall t, In t (official_of bs)
                <-> In (StateTotal t) bs /\ is_empty t = false).
Proof.
  split; [apply official_ingest|].
  intros t. unfold official_of. rewrite in_flat_map. split.
  - intros ([c|i|t'|] & Hb & H); try contradiction.
    destruct (is_empty t') eqn:E; simpl in H; [contradiction|].
    destruct H as [<-|[]]. auto.
  - intros [Hb E]. exists (StateTotal t). split; [exact Hb|].
    rewrite E. simpl. auto.
Qed.

Lemma official_of_non_empty (bs : list Bulletin) :
  Forall (fun o => is_empty o = false) (official_of bs).
Proof.
  apply Forall_forall. intros o H. unfold official_of in H.
  apply in_flat_map in H. destruct H as ([c|i|t|] & _ & H);
    try contradiction.
  destruct (is_empty t) eqn:E; simpl in H; [contradiction|].
  destruct H as [<-|[]]. exact E.
Qed.

(** X6: when no stored official total is empty, none is after any
    ingestion; so whenever an official total is stored, [total_bulletin] is
    not an empty bulletin. *)
Theorem official_totals_are_never_empty (bs : list Bulletin)
        (self : FullReportModel) :
  Forall (fun o => is_empty o = false) (_official_total_bulletins self) ->
  Forall (fun o => is_empty o = false)
    (_official_total_bulletins (ingest bs self))
  /\ (_official_total_bulletins (ingest bs self) <> [] ->
      is_empty (total_bulletin (ingest bs self)) = false).
Proof.
  intros F.
  assert (A : Forall (fun o => is_empty o = false)
                (_official_total_bulletins (ingest bs self))).
  { rewrite official_ingest. apply Forall_app. split; [exact F|].
    apply official_of_non_empty. }
  split; [exact A|].
  unfold total_bulletin.
  destruct (_official_total_bulletins (ingest bs self)) as [|o os];
    [congruence|].
  intros _. now inversion A.
Qed.

Lemma add_undefined (b : Bulletin) (self : FullReportModel) :
  undefined_or_imported_cases_bulletin (add_new_bulletin b self)
  = last_imported [b] (undefined_or_imported_cases_bulletin self).
Proof.
  destruct b as [c|i|t|].
  - apply add_county_undefined.
  - reflexivity.
  - simpl. now destruct (negb (is_empty t)).
  - reflexivity.
Qed.

(** X7: the undefined/imported bulletin of a report is the last one
    ingested, or the one it had when none was; [has_undefined_or_imported_cases]
    tells whether that bulletin has a count. *)
Theorem stored_imported_bulletin_is_the_last (bs : list Bulletin)
        (self : FullReportModel) :
  undefined_or_imported_cases_bulletin (ingest bs self)
  = last_imported bs (undefined_or_imported_cases_bulletin self)
  /\ has_undefined_or_imported_cases (ingest bs self)
     = negb (is_empty
               (last_imported bs
                  (undefined_or_imported_cases_bulletin self))).
Proof.
  assert (A : forall r,
             undefined_or_imported_cases_bulletin (ingest bs r)
             = last_imported bs (undefined_or_imported_cases_bulletin r)).
  { induction bs as [|b bs IH]; intros r; [reflexivity|].
    rewrite ingest_cons, IH, add_undefined. reflexivity. }
  split; [apply A|].
  unfold has_undefined_or_imported_cases. now rewrite A.
Qed.

(** ** Further properties of the warnings *)

Lemma quality_eqb_eq (a b : ReportQuality.t) :
  ReportQuality.eqb a b = true <-> a = b.
Proof.
  destruct a, b; simpl; split; intros H;
    try discriminate; try reflexivity.
  - apply Nat.eqb_eq in H. now subst.
  - inversion H. apply Nat.eqb_refl.
Qed.

Lemma py_in_quality (q : ReportQuality.t) (l : list ReportQuality.t) :
  py_in ReportQuality.eqb q l = true <-> In q l.
Proof.
  unfold py_in. rewrite existsb_exists. split.
  - intros (x & Hx & E). apply quality_eqb_eq in E. now subst.
  - intros H. exists q. split; [exact H|now apply quality_eqb_eq].
Qed.

Lemma forallb_false (X : Type) (f : X -> bool) (l : list X) :
  forallb f l = false <-> exists x, In x l /\ f x = false.
Proof.
  induction l as [|a l IH]; simpl.
  - split; [discriminate|intros (x & [] & _)].
  - rewrite andb_false_iff, IH. split.
    + intros [H | (x & Hx & E)]; [exists a|exists x]; auto.
    + intros (x & [<-|Hx] & E); [left|right]; eauto.
Qed.

Lemma check_confirmed_false (self : FullReportModel) :
  _official_total_bulletins self <> [] ->
  (check_total_confirmed_cases self = false
   <-> exists o, In o (_official_total_bulletins self)
                 /\ confirmed_cases o
                    <> confirmed_cases (_auto_calculated_total self)).
Proof.
  intros N. unfold check_total_confirmed_cases.
  destruct (_official_total_bulletins self) as [|o os]; [congruence|].
  cbv [py_not]. rewrite forallb_false.
  split; intros (x & Hx & E); exists x; split; auto.
  - apply opt_eqb_neq in E. congruence.
  - apply opt_eqb_neq. congruence.
Qed.

Lemma check_deaths_false (self : FullReportModel) :
  _official_total_bulletins self <> [] ->
  (check_total_death_cases self = false
   <-> exists o, In o (_official_total_bulletins self)
                 /\ deaths o <> deaths (_auto_calculated_total self)).
Proof.
  intros N. unfold check_total_death_cases.
  destruct (_official_total_bulletins self) as [|o os]; [congruence|].
  cbv [py_not]. rewrite forallb_false.
  split; intros (x & Hx & E); exists x; split; auto.
  - apply opt_eqb_neq in E. congruence.
  - apply opt_eqb_neq. congruence.
Qed.

Lemma in_rule (X D : Type) (k k' : X) (d : D) (c : bool) :
  In k (map fst (if c then [(k', d)] else [])) <-> c = true /\ k' = k.
Proof. destruct c; simpl; intuition discriminate. Qed.

Lemma in_rule_else (X D : Type) (k k1 k2 : X) (d1 d2 : D) (c c' : bool) :
  In k (map fst (if c then [(k1, d1)]
                 else if c' then [(k2, d2)] else []))
  <-> (c = true /\ k1 = k) \/ (c = false /\ c' = true /\ k2 = k).
Proof. destruct c, c'; simpl; intuition discriminate. Qed.

(** X8: the rules of [_auto_detect_warnings].  One run calls [add_warning]
    for a kind exactly under the condition listed with it here; it never
    calls it for SOURCES_DONT_MATCH, never for both NO_OFFICIAL_TOTAL and
    TOTAL_DONT_MATCH, and TOTAL_DONT_MATCH needs a non-empty auto-calculated
    total and an official total that differs from it in one count.  Every
    kind called for is in the set afterwards. *)
Theorem auto_detect_rules (self : FullReportModel) :
  let called := fun k => In k (map fst (detected self)) in
  let auto := _auto_calculated_total self in
  let official := _official_total_bulletins self in
  _auto_detect_warnings self = add_warnings (detected self) self
  /\ (called WarningType.MISSING_COUNTY_BULLETINS
      <-> In ReportQuality.COUNTY_BULLETINS (_expected_qualities self)
          /\ _county_bulletins self = [])
  /\ (called WarningType.MISSING_IMPORTED_UNDEFINED_CASES
      <-> In ReportQuality.UNDEFINED_OR_IMPORTED_CASES
            (_expected_qualities self)
          /\ is_empty (undefined_or_imported_cases_bulletin self) = true)
  /\ (called WarningType.ONLY_TOTAL
      <-> In ReportQuality.ONLY_TOTAL (_expected_qualities self))
  /\ (called WarningType.MISSING_CONFIRMED_CASES
      <-> confirmed_cases (total_bulletin self) = None)
  /\ (called WarningType.MISSING_DEATHS
      <-> deaths (total_bulletin self) = None)
  /\ (called WarningType.NO_OFFICIAL_TOTAL <-> official = [])
  /\ (called WarningType.TOTAL_DONT_MATCH
      <-> official <> [] /\ is_empty auto = false
          /\ exists o, In o official
                       /\ (confirmed_cases o <> confirmed_cases auto
                           \/ deaths o <> deaths auto))
  /\ (called WarningType.SOURCES_DONT_MATCH <-> False)
  /\ (forall k, called k ->
                has_warning (slug_value k)
                  (_warnings (_auto_detect_warnings self)) = true).
Proof.
  intros called auto official.
  split; [apply auto_detect_runs_detected|].
  assert (R1 : py_in ReportQuality.eqb ReportQuality.COUNTY_BULLETINS
                 (_expected_qualities self)
               && py_not (_county_bulletins self) = true
               <-> In ReportQuality.COUNTY_BULLETINS
                     (_expected_qualities self)
                   /\ _county_bulletins self = []).
  { now rewrite andb_true_iff, py_in_quality, py_not_nil. }
  assert (R2 : py_in ReportQuality.eqb
                 ReportQuality.UNDEFINED_OR_IMPORTED_CASES
                 (_expected_qualities self)
               && negb (has_undefined_or_imported_cases self) = true
               <-> In ReportQuality.UNDEFINED_OR_IMPORTED_CASES
                     (_expected_qualities self)
                   /\ is_empty (undefined_or_imported_cases_bulletin self)
                      = true).
  { rewrite andb_true_iff, py_in_quality.
    unfold has_undefined_or_imported_cases. simpl.
    now rewrite negb_involutive. }
  assert (R3 : py_in ReportQuality.eqb ReportQuality.ONLY_TOTAL
                 (_expected_qualities self) = true
               <-> In ReportQuality.ONLY_TOTAL (_expected_qualities self))
    by apply py_in_quality.
  assert (R4 : negb (has_confirmed_cases (total_bulletin self)) = true
               <-> confirmed_cases (total_bulletin self) = None).
  { unfold has_confirmed_cases.
    destruct (confirmed_cases (total_bulletin self)); simpl;
      split; congruence. }
  assert (R5 : negb (has_deaths (total_bulletin self)) = true
               <-> deaths (total_bulletin self) = None).
  { unfold has_deaths.
    destruct (deaths (total_bulletin self)); simpl; split; congruence. }
  assert (R6 : py_not official = true <-> official = [])
    by apply py_not_nil.
  assert (R7 : official <> [] ->
               (negb (is_empty auto)
                && (negb (check_total_confirmed_cases self)
                    || negb (check_total_death_cases self)) = true
                <-> is_empty auto = false
                    /\ exists o, In o official
                                 /\ (confirmed_cases o
                                     <> confirmed_cases auto
                                     \/ deaths o <> deaths auto))).
  { intros N.
    rewrite andb_true_iff, orb_true_iff, !negb_true_iff.
    rewrite (check_confirmed_false self N), (check_deaths_false self N).
    split.
    - intros [E [(o & Ho & D) | (o & Ho & D)]]; split; eauto.
    - intros [E (o & Ho & [D | D])]; split; eauto. }
  assert (K : forall k, called k ->
                        has_warning (slug_value k)
                          (_warnings (_auto_detect_warnings self)) = true).
  { intros k Hk. rewrite auto_detect_runs_detected,
      has_warning_add_warnings.
    apply orb_true_iff. right. apply existsb_exists.
    unfold called in Hk. apply in_map_iff in Hk.
    destruct Hk as (w & <- & Hw). exists w. split; [exact Hw|].
    apply String.eqb_refl. }
  subst called auto official.
  assert (N6 : py_not (_official_total_bulletins self) = false
               <-> _official_total_bulletins self <> []).
  { rewrite <- R6.
    destruct (py_not (_official_total_bulletins self)); intuition congruence. }
  split; [|split; [|split; [|split; [|split; [|split; [|split;
    [|split; [|exact K]]]]]]]];
    clear K; unfold detected;
    rewrite !map_app, !in_app_iff, !in_rule, in_rule_else,
      R1, R2, R3, R4, R5, R6, N6;
    try (intuition (discriminate || congruence); fail).
Qed.

Lemma set_add_appends (w : BulletinWarning) (s : list BulletinWarning) :
  set_add w s = s \/ set_add w s = s ++ [w].
Proof. unfold set_add. destruct (existsb _ s); auto. Qed.

Lemma set_add_not_nil (w : BulletinWarning) (s : list BulletinWarning) :
  set_add w s <> [].
Proof.
  unfold set_add. destruct s as [|x s]; simpl; [discriminate|].
  destruct (_ || _); discriminate.
Qed.

Lemma add_warnings_appends (ws : list (WarningType.t * option Description))
      (self : FullReportModel) :
  exists added,
    _warnings (add_warnings ws self) = _warnings self ++ added.
Proof.
  revert self. induction ws as [|w ws IH]; intros self.
  - exists []. simpl. now rewrite app_nil_r.
  - unfold add_warnings in *. simpl.
    destruct (IH (add_warning (fst w) (snd w) self)) as [added ->].
    simpl.
    destruct (set_add_appends (mkWarning (slug_value (fst w)) (snd w))
                (_warnings self)) as [-> | ->].
    + now exists added.
    + rewrite <- app_assoc. eexists. reflexivity.
Qed.

(** X9: [_auto_detect_warnings] only adds warnings at the end of those
    recorded before; nothing else of the report changes, so the rows, the
    total bulletin and both checks are the same before and after a call of
    [warnings_slug]. *)
Theorem auto_detect_changes_warnings_only (self : FullReportModel) :
  exists added,
    _auto_detect_warnings self
    = set_warnings (_warnings self ++ added) self
    /\ snd (warnings_slug self)
       = set_warnings (_warnings self ++ added) self
    /\ to_csv_rows (snd (warnings_slug self)) = to_csv_rows self
    /\ total_bulletin (snd (warnings_slug self)) = total_bulletin self
    /\ check_total_confirmed_cases (snd (warnings_slug self))
       = check_total_confirmed_cases self
    /\ check_total_death_cases (snd (warnings_slug self))
       = check_total_death_cases self.
Proof.
  destruct (add_warnings_appends (detected self) self) as [added A].
  exists added.
  assert (E : _auto_detect_warnings self
              = set_warnings (_warnings self ++ added) self).
  { rewrite auto_detect_runs_detected, add_warnings_data, A.
    reflexivity. }
  assert (S : snd (warnings_slug self)
              = set_warnings (_warnings self ++ added) self).
  { unfold warnings_slug. rewrite E.
    now destruct (py_not (_warnings (set_warnings _ self))). }
  split; [exact E|]. split; [exact S|]. rewrite S. repeat split.
Qed.

Lemma set_add_kinds (w : BulletinWarning) (s : list BulletinWarning) :
  NoDup (map slug s) -> NoDup (map slug (set_add w s)).
Proof.
  intros N. unfold set_add. destruct (existsb (warning_eq w) s) eqn:E.
  - exact N.
  - rewrite map_app. simpl. apply NoDup_app.
    + exact N.
    + repeat constructor. auto.
    + intros x Hx [<-|[]]. apply in_map_iff in Hx.
      destruct Hx as (v & Hv & Hin).
      assert (T : existsb (warning_eq w) s = true).
      { apply existsb_exists. exists v. split; [exact Hin|].
        unfold warning_eq. rewrite Hv. apply String.eqb_refl. }
      congruence.
Qed.

Lemma add_warnings_kinds (ws : list (WarningType.t * option Description))
      (self : FullReportModel) :
  kinds_unique self -> kinds_unique (add_warnings ws self).
Proof.
  revert self. induction ws as [|w ws IH]; intros self U; [exact U|].
  unfold add_warnings in *. simpl. apply IH.
  unfold kinds_unique, add_warning. simpl. now apply set_add_kinds.
Qed.

Lemma py_set_nodup_id (l : list string) : NoDup l -> py_set l = l.
Proof.
  induction 1 as [|x l Hx N IH]; simpl; [reflexivity|].
  rewrite IH. f_equal.
  apply forallb_filter_id. apply forallb_forall.
  intros y Hy. apply negb_true_iff, String.eqb_neq. congruence.
Qed.

(** The warnings that one [add_new_bulletin] call can add. *)
Lemma add_bulletin_warnings (b : Bulletin) (self : FullReportModel) :
  _warnings (add_new_bulletin b self) = _warnings self
  \/ exists c e,
       b = County c
       /\ dict_get (hash c) (_county_bulletins self) = Some e
       /\ county_eq e c = false
       /\ sources_disagree e c = true
       /\ _warnings (add_new_bulletin b self)
          = set_add
              (mkWarning (slug_value WarningType.SOURCES_DONT_MATCH)
                 (Some (SourcesDontMatchText (sources e) (sources c))))
              (_warnings self).
Proof.
  destruct b as [c|i|t|]; simpl; auto.
  - unfold _pop_county_bulletin, dict_pop.
    destruct (dict_get (hash c) (_county_bulletins self)) as [e|] eqn:G;
      simpl; [|auto].
    unfold _compare_county_bulletins_and_return_the_completest.
    destruct (county_eq e c) eqn:Q; simpl; [auto|].
    destruct (sources_disagree e c) eqn:D.
    + right. exists c, e. repeat split; auto.
      destruct (is_complete e); [|destruct (is_complete c)]; reflexivity.
    + left. destruct (is_complete e); [|destruct (is_complete c)];
        reflexivity.
  - destruct (negb (is_empty t)); auto.
Qed.

(** X10: a kind of warning is recorded once, with the description given
    first.  A second [add_warning] of a kind changes nothing, and a set
    whose kinds are all different stays so under [add_warning],
    [add_new_bulletin] and [warnings_slug]; on such a set the [set] built
    by [warnings_slug] drops nothing. *)
Theorem warning_kinds_are_recorded_once
        (k : WarningType.t) (d1 d2 : option Description) (b : Bulletin)
        (self : FullReportModel) :
  add_warning k d2 (add_warning k d1 self) = add_warning k d1 self
  /\ (kinds_unique self ->
      kinds_unique (add_warning k d1 self)
      /\ kinds_unique (add_new_bulletin b self)
      /\ kinds_unique (snd (warnings_slug self))
      /\ py_set (map slug (_warnings self)) = map slug (_warnings self)).
Proof.
  split.
  - unfold add_warning at 1. rewrite set_add_present.
    + now destruct (add_warning k d1 self).
    + unfold add_warning. simpl. rewrite set_add_has. simpl.
      rewrite String.eqb_refl. apply orb_true_r.
  - intros U. split; [|split; [|split]].
    + unfold kinds_unique, add_warning. simpl. now apply set_add_kinds.
    + unfold kinds_unique.
      destruct (add_bulletin_warnings b self)
        as [-> | (c & e & _ & _ & _ & _ & ->)]; [exact U|].
      now apply set_add_kinds.
    + replace (snd (warnings_slug self))
        with (_auto_detect_warnings self).
      * rewrite auto_detect_runs_detected. now apply add_warnings_kinds.
      * unfold warnings_slug.
        now destruct (py_not (_warnings (_auto_detect_warnings self))).
    + now apply py_set_nodup_id.
Qed.

(** X11: [add_new_bulletin] adds at most one warning, of the kind
    SOURCES_DONT_MATCH, and only for a county bulletin whose key holds a
    bulletin that is not value-equal and differs in a count both report;
    in particular a first bulletin under a key, an undefined/imported
    bulletin and a state total add no warning. *)
Theorem ingestion_warns_of_disagreeing_sources_only
        (b : Bulletin) (self : FullReportModel) :
  exists added,
    _warnings (add_new_bulletin b self) = _warnings self ++ added
    /\ (forall w, In w added ->
                  slug w = slug_value WarningType.SOURCES_DONT_MATCH)
    /\ (List.length added <= 1)%nat
    /\ (added <> [] ->
        exists c e,
          b = County c
          /\ dict_get (hash c) (_county_bulletins self) = Some e
          /\ county_eq e c = false
          /\ (counts_differ (deaths e) (deaths c)
              \/ counts_differ (confirmed_cases e) (confirmed_cases c))).
Proof.
  destruct (add_bulletin_warnings b self)
    as [E | (c & e & Hb & G & Q & D & E)].
  - exists []. rewrite E, app_nil_r. repeat split.
    + intros w [].
    + simpl. lia.
    + congruence.
  - destruct (set_add_appends
                (mkWarning (slug_value WarningType.SOURCES_DONT_MATCH)
                   (Some (SourcesDontMatchText (sources e) (sources c))))
                (_warnings self)) as [A | A]; rewrite A in E.
    + exists []. rewrite E, app_nil_r. repeat split.
      * intros w [].
      * simpl. lia.
      * congruence.
    + eexists. split; [exact E|]. split; [|split].
      * intros w [<-|[]]. reflexivity.
      * simpl. lia.
      * intros _. exists c, e. repeat split; auto.
        now apply sources_disagree_iff.
Qed.

Lemma add_warnings_nil (ws : list (WarningType.t * option Description))
      (self : FullReportModel) :
  _warnings (add_warnings ws self) = [] -> ws = [] /\ _warnings self = [].
Proof.
  destruct ws as [|w ws]; [auto|].
  unfold add_warnings. simpl. intros H.
  destruct (add_warnings_appends ws (add_warning (fst w) (snd w) self))
    as [added A].
  unfold add_warnings in A. rewrite A in H.
  apply app_eq_nil in H. destruct H as [H _].
  simpl in H. now apply set_add_not_nil in H.
Qed.

Lemma rule_nil (X : Type) (c : bool) (x : X) :
  (if c then [x] else []) = [] -> c = false.
Proof. destruct c; [discriminate|reflexivity]. Qed.

(** X12: what an empty [warnings_slug] guarantees.  No warning was recorded
    before the call; an official total is stored and the total bulletin has
    both counts; the auto-calculated total is empty or equal, in both
    counts, to every official total; and every expected quality is met. *)
Theorem empty_slug_means_nothing_is_missing (self : FullReportModel) :
  fst (warnings_slug self) = "" ->
  _warnings self = []
  /\ _official_total_bulletins self <> []
  /\ has_confirmed_cases (total_bulletin self) = true
  /\ has_deaths (total_bulletin self) = true
  /\ (is_empty (_auto_calculated_total self) = true
      \/ (check_total_confirmed_cases self = true
          /\ check_total_death_cases self = true))
  /\ (In ReportQuality.COUNTY_BULLETINS (_expected_qualities self) ->
      _county_bulletins self <> [])
  /\ (In ReportQuality.UNDEFINED_OR_IMPORTED_CASES
        (_expected_qualities self) ->
      has_undefined_or_imported_cases self = true)
  /\ (In ReportQuality.ONLY_TOTAL (_expected_qualities self) -> False).
Proof.
  intros H. unfold warnings_slug in H.
  destruct (py_not (_warnings (_auto_detect_warnings self))) eqn:E;
    [|discriminate H]. clear H.
  apply py_not_nil in E. rewrite auto_detect_runs_detected in E.
  apply add_warnings_nil in E. destruct E as [D W].
  split; [exact W|]. clear W.
  unfold detected in D.
  apply app_eq_nil in D. destruct D as [D1 D].
  apply app_eq_nil in D. destruct D as [D2 D].
  apply app_eq_nil in D. destruct D as [D3 D].
  apply app_eq_nil in D. destruct D as [D4 D].
  apply app_eq_nil in D. destruct D as [D5 D].
  apply rule_nil in D1, D2, D3, D4, D5.
  apply negb_false_iff in D4, D5.
  destruct (py_not (_official_total_bulletins self)) eqn:D6;
    [discriminate D|].
  apply rule_nil in D.
  split; [intros N; apply py_not_nil in N; congruence|].
  split; [exact D4|]. split; [exact D5|].
  split.
  { destruct (is_empty (_auto_calculated_total self)); [now left|right].
    simpl in D. apply orb_false_iff in D. destruct D as [Dc Dd].
    apply negb_false_iff in Dc, Dd. auto. }
  split.
  { intros Q N. apply py_in_quality in Q. rewrite Q, N in D1.
    discriminate D1. }
  split.
  { intros Q. apply py_in_quality in Q. rewrite Q in D2.
    simpl in D2. now apply negb_false_iff in D2. }
  intros Q. apply py_in_quality in Q. congruence.
Qed.

(** X13: on a report whose auto-calculated total is the sum of the
    bulletins it holds, a check that passes means that every official total
    reports exactly that sum. *)
Theorem passing_check_means_official_equals_sum (self : FullReportModel) :
  total_is_sum self ->
  (check_total_confirmed_cases self = true ->
   _official_total_bulletins self <> []
   /\ forall o, In o (_official_total_bulletins self) ->
                count (confirmed_cases o)
                = contributed confirmed_cases self)
  /\ (check_total_death_cases self = true ->
      _official_total_bulletins self <> []
      /\ forall o, In o (_official_total_bulletins self) ->
                   count (deaths o) = contributed deaths self).
Proof.
  intros [Tc Td].
  unfold check_total_confirmed_cases, check_total_death_cases.
  destruct (_official_total_bulletins self) as [|o0 os] eqn:O;
    cbv [py_not]; split; intros H; try discriminate H;
    (split; [discriminate|]);
    rewrite forallb_forall in H; intros o Ho;
    specialize (H o Ho); apply opt_eqb_eq in H; congruence.
Qed.

Lemma imported_count_firstn (n : nat) (bs : list Bulletin) :
  (imported_count (firstn n bs) <= imported_count bs)%nat.
Proof.
  revert n. induction bs as [|b bs IH]; intros [|n]; simpl;
    unfold imported_count in *; simpl; try lia.
  specialize (IH n). destruct b; simpl; lia.
Qed.

(** X14: on a new report, along a sequence of calls with at most one
    undefined/imported bulletin, the auto-calculated total equals after each
    call the sum over the county bulletins stored then and the
    undefined/imported bulletin. *)
Theorem total_is_sum_after_each_call
        (d p : Date) (s : State) (qualities : list ReportQuality.t)
        (r : FullReportModel) (bs : list Bulletin) (n : nat) :
  init d p s qualities = inr r ->
  (imported_count bs <= 1)%nat ->
  total_is_sum (ingest (firstn n bs) r).
Proof.
  intros I N. apply (ingest_from_init_total_is_sum _ _ _ _ _ I).
  pose proof (imported_count_firstn n bs). lia.
Qed.

(** ** Composition of calls *)

Lemma dict_remove_append (V : Type) (d : dict V) (k : Z) (v : V) :
  dict_get k d = None -> dict_remove k (d ++ [(k, v)]) = d.
Proof.
  induction d as [|[k' v'] d IH]; simpl.
  - now rewrite Z.eqb_refl.
  - destruct (Z.eqb k k'); [discriminate|].
    intros H. now rewrite IH.
Qed.

(** X15: [_pop_county_bulletin] on a key that is not stored returns
    nothing and leaves the report as it is; right after a county bulletin
    was stored under a new key it returns that bulletin and leaves the
    dictionary as it was before.  A count of the auto-calculated total
    that the bulletin lacks is untouched; one that the bulletin has is set,
    to the number it stood at before (zero if it was unset): so it returns
    to its previous value when it was set, and goes from unset to zero when
    it was not. *)
Theorem pop_undoes_a_new_county_bulletin (b : CountyBulletinModel)
        (self : FullReportModel) :
  dict_get (hash b) (_county_bulletins self) = None ->
  let popped :=
    _pop_county_bulletin (hash b) (add_new_bulletin (County b) self) in
  let total := _auto_calculated_total self in
  let after := _auto_calculated_total (snd popped) in
  _pop_county_bulletin (hash b) self = (None, self)
  /\ fst popped = Some b
  /\ _county_bulletins (snd popped) = _county_bulletins self
  /\ count (confirmed_cases after) = count (confirmed_cases total)
  /\ count (deaths after) = count (deaths total)
  /\ _warnings (snd popped) = _warnings self
  /\ _official_total_bulletins (snd popped) = _official_total_bulletins self
  /\ undefined_or_imported_cases_bulletin (snd popped)
     = undefined_or_imported_cases_bulletin self
  /\ confirmed_cases after
     = match confirmed_cases b with
       | Some _ => Some (count (confirmed_cases total))
       | None => confirmed_cases total
       end
  /\ deaths after
     = match deaths b with
       | Some _ => Some (count (deaths total))
       | None => deaths total
       end
  /\ (confirmed_cases b = None \/ confirmed_cases total <> None ->
      confirmed_cases after = confirmed_cases total)
  /\ (deaths b = None \/ deaths total <> None ->
      deaths after = deaths total)
  /\ (confirmed_cases b <> None -> confirmed_cases total = None ->
      confirmed_cases after = Some 0)
  /\ (deaths b <> None -> deaths total = None -> deaths after = Some 0).
Proof.
  intros G popped total after.
  assert (Gb : dict_get (hash b) (_county_bulletins self ++ [(hash b, b)])
               = Some b).
  { rewrite <- (dict_set_absent _ _ b G). apply dict_get_set_same. }
  assert (P : popped
              = (Some b,
                 set_total (decrease_total b (increase_total b total))
                   (set_county (_county_bulletins self)
                      (add_new_bulletin (County b) self)))).
  { unfold popped. rewrite (add_county_new b self G).
    unfold _pop_county_bulletin, dict_pop. simpl.
    rewrite Gb, (@dict_remove_append _ _ _ b G). reflexivity. }
  assert (Ec : confirmed_cases after
               = match confirmed_cases b with
                 | Some _ => Some (count (confirmed_cases total))
                 | None => confirmed_cases total
                 end).
  { unfold after. rewrite P. simpl.
    rewrite decrease_total_confirmed, increase_total_confirmed.
    destruct (confirmed_cases b); [|reflexivity]. simpl. f_equal. lia. }
  assert (Ed : deaths after
               = match deaths b with
                 | Some _ => Some (count (deaths total))
                 | None => deaths total
                 end).
  { unfold after. rewrite P. simpl.
    rewrite decrease_total_deaths, increase_total_deaths.
    destruct (deaths b); [|reflexivity]. simpl. f_equal. lia. }
  split.
  { unfold _pop_county_bulletin, dict_pop.
    rewrite G, (dict_remove_absent _ _ G). now destruct self. }
  split; [now rewrite P|]. split; [now rewrite P|].
  split; [rewrite Ec; now destruct (confirmed_cases b)|].
  split; [rewrite Ed; now destruct (deaths b)|].
  split; [rewrite P, (add_county_new b self G); reflexivity|].
  split; [rewrite P, (add_county_new b self G); reflexivity|].
  split; [rewrite P, (add_county_new b self G); reflexivity|].
  split; [exact Ec|]. split; [exact Ed|].
  rewrite Ec, Ed. split; [|split; [|split]].
  - intros [H | H]; [now rewrite H|].
    destruct (confirmed_cases b); [|reflexivity].
    destruct (confirmed_cases total); [reflexivity|].
    exfalso. now apply H.
  - intros [H | H]; [now rewrite H|].
    destruct (deaths b); [|reflexivity].
    destruct (deaths total); [reflexivity|].
    exfalso. now apply H.
  - intros H T. rewrite T.
    destruct (confirmed_cases b); [reflexivity|]. exfalso. now apply H.
  - intros H T. rewrite T.
    destruct (deaths b); [reflexivity|]. exfalso. now apply H.
Qed.

Lemma add_set_official (b : Bulletin) (l : list StateTotalBulletinModel)
      (r : FullReportModel) :
  add_new_bulletin b (set_official l r)
  = set_official (l ++ official_of [b]) (add_new_bulletin b r).
Proof.
  destruct r as [rd pa st und off cty auto q w].
  destruct b as [c|i|t|]; unfold official_of; cbn [flat_map];
    rewrite ?app_nil_r.
  - unfold add_new_bulletin, _pop_county_bulletin, dict_pop. simpl.
    destruct (dict_get (hash c) cty) as [e|]; simpl; [|reflexivity].
    unfold _compare_county_bulletins_and_return_the_completest.
    destruct (county_eq e c); simpl; [reflexivity|].
    destruct (sources_disagree e c), (is_complete e), (is_complete c);
      reflexivity.
  - reflexivity.
  - simpl. destruct (negb (is_empty t)); simpl;
      rewrite ?app_nil_r; reflexivity.
  - reflexivity.
Qed.

Lemma official_of_cons (b : Bulletin) (bs : list Bulletin) :
  official_of (b :: bs) = official_of [b] ++ official_of bs.
Proof. unfold official_of. simpl. now rewrite app_nil_r. Qed.

Lemma ingest_set_official (bs : list Bulletin)
      (l : list StateTotalBulletinModel) (r : FullReportModel) :
  ingest bs (set_official l r)
  = set_official (l ++ official_of bs) (ingest bs r).
Proof.
  revert l r. induction bs as [|b bs IH]; intros l r.
  - simpl. now rewrite app_nil_r.
  - rewrite !ingest_cons, add_set_official, IH, (official_of_cons b bs).
    now rewrite app_assoc.
Qed.

Lemma set_official_twice (l l' : list StateTotalBulletinModel)
      (r : FullReportModel) :
  set_official l (set_official l' r) = set_official l r.
Proof. reflexivity. Qed.

(** X16: state totals never feed the report's own data.  A sequence of
    calls leaves the report that its county and undefined/imported
    bulletins alone would leave, with the official totals of the sequence
    added; so the county dictionary, the undefined/imported bulletin, the
    auto-calculated total and the warnings do not depend on the state totals
    ingested, nor on where in the sequence they come. *)
Theorem state_totals_do_not_feed_the_auto_total (bs : list Bulletin)
        (self : FullReportModel) :
  let own := ingest (contributing bs) self in
  ingest bs self
  = set_official (_official_total_bulletins self ++ official_of bs) own
  /\ _auto_calculated_total (ingest bs self) = _auto_calculated_total own
  /\ _county_bulletins (ingest bs self) = _county_bulletins own
  /\ undefined_or_imported_cases_bulletin (ingest bs self)
     = undefined_or_imported_cases_bulletin own
  /\ _warnings (ingest bs self) = _warnings own.
Proof.
  intros own.
  assert (E : ingest bs self
              = set_official
                  (_official_total_bulletins self ++ official_of bs) own).
  { unfold own. clear own. revert self.
    induction bs as [|b bs IH]; intros self.
    - simpl. rewrite app_nil_r. now destruct self.
    - rewrite ingest_cons, (official_of_cons b bs).
      destruct b as [c|i|t|].
      + change (contributing (County c :: bs))
          with (County c :: contributing bs).
        rewrite ingest_cons, IH, add_official. simpl.
        now rewrite app_nil_r.
      + change (contributing (ImportedUndefined i :: bs))
          with (ImportedUndefined i :: contributing bs).
        rewrite ingest_cons, IH. reflexivity.
      + change (contributing (StateTotal t :: bs)) with (contributing bs).
        replace (add_new_bulletin (StateTotal t) self)
          with (set_official
                  (_official_total_bulletins self
                     ++ official_of [StateTotal t]) self).
        * rewrite ingest_set_official, IH, set_official_twice.
          now rewrite app_assoc.
        * simpl. destruct (negb (is_empty t)); simpl;
            [reflexivity|]. rewrite app_nil_r. now destruct self.
      + change (contributing (OtherBulletin :: bs)) with (contributing bs).
        simpl. apply IH. }
  split; [exact E|]. rewrite E. repeat split.
Qed.

(** The county branch in one equation. *)
Lemma add_county_form (b : CountyBulletinModel) (self : FullReportModel) :
  let found := dict_get (hash b) (_county_bulletins self) in
  let stored := match found with Some e => completest e b | None => b end in
  exists w,
    add_new_bulletin (County b) self
    = set_warnings w
        (set_total
           (increase_total stored
              (match found with
               | Some e => decrease_total e (_auto_calculated_total self)
               | None => _auto_calculated_total self
               end))
           (set_county
              (dict_set (hash b) stored
                 (dict_remove (hash b) (_county_bulletins self)))
              self)).
Proof.
  intros found stored. unfold stored, found.
  destruct (dict_get (hash b) (_county_bulletins self)) as [e|] eqn:G.
  - apply (add_county_existing b self G).
  - exists (_warnings self). rewrite (add_county_new b self G).
    rewrite (dict_remove_absent _ _ G), (dict_set_absent _ _ b G).
    reflexivity.
Qed.

Lemma dict_get_set_remove (V : Type) (d : dict V) (k k' : Z) (v : V) :
  dict_get k' (dict_set k v (dict_remove k d))
  = if Z.eqb k' k then Some v else dict_get k' d.
Proof.
  destruct (Z.eqb_spec k' k) as [->|N].
  - apply dict_get_set_same.
  - rewrite dict_get_set_other by exact N.
    now apply dict_get_remove_other.
Qed.

(** X17: county bulletins of different keys can be ingested in either
    order: every key maps to the same bulletin afterwards and the
    auto-calculated total is the same. *)
Theorem county_bulletins_of_different_keys_commute
        (b1 b2 : CountyBulletinModel) (self : FullReportModel) :
  hash b1 <> hash b2 ->
  let r12 := add_new_bulletin (County b2)
               (add_new_bulletin (County b1) self) in
  let r21 := add_new_bulletin (County b1)
               (add_new_bulletin (County b2) self) in
  (forall k, dict_get k (_county_bulletins r12)
             = dict_get k (_county_bulletins r21))
  /\ confirmed_cases (_auto_calculated_total r12)
     = confirmed_cases (_auto_calculated_total r21)
  /\ deaths (_auto_calculated_total r12)
     = deaths (_auto_calculated_total r21)
  /\ undefined_or_imported_cases_bulletin r12
     = undefined_or_imported_cases_bulletin r21
  /\ _official_total_bulletins r12 = _official_total_bulletins r21.
Proof.
  intros N r12 r21. unfold r12, r21.
  destruct (add_county_form b1 self) as [w1 E1].
  destruct (add_county_form b2 self) as [w2 E2].
  destruct (add_county_form b2 (add_new_bulletin (County b1) self))
    as [w12 E12].
  destruct (add_county_form b1 (add_new_bulletin (County b2) self))
    as [w21 E21].
  assert (G2 : dict_get (hash b2)
                 (_county_bulletins (add_new_bulletin (County b1) self))
               = dict_get (hash b2) (_county_bulletins self)).
  { rewrite E1. simpl. rewrite dict_get_set_remove.
    destruct (Z.eqb_spec (hash b2) (hash b1)); congruence. }
  assert (G1 : dict_get (hash b1)
                 (_county_bulletins (add_new_bulletin (County b2) self))
               = dict_get (hash b1) (_county_bulletins self)).
  { rewrite E2. simpl. rewrite dict_get_set_remove.
    destruct (Z.eqb_spec (hash b1) (hash b2)); congruence. }
  rewrite G2 in E12. rewrite G1 in E21. rewrite E12, E21, E1, E2.
  simpl.
  split.
  { intros k. rewrite !dict_get_set_remove.
    destruct (Z.eqb_spec k (hash b1)), (Z.eqb_spec k (hash b2));
      congruence. }
  rewrite !increase_total_confirmed, !increase_total_deaths.
  destruct (dict_get (hash b1) (_county_bulletins self)) as [e1|],
    (dict_get (hash b2) (_county_bulletins self)) as [e2|];
    rewrite ?decrease_total_confirmed, ?decrease_total_deaths,
      ?increase_total_confirmed, ?increase_total_deaths,
      ?decrease_total_confirmed, ?decrease_total_deaths;
    repeat split;
    repeat match goal with
           | |- context [match ?x with Some _ => _ | None => _ end] =>
               destruct x; simpl
           end;
    try reflexivity; f_equal; lia.
Qed.

End FullReport.

(** ** The model run on concrete bulletins

    The parameters of the model are given values here: dates are day
    numbers, a state is its abbreviation, the sources of a bulletin are a
    list of names, and a row is a label with the two counts. *)

Module Concrete.

Definition Date : Type := Z.
Definition State : Type := string.
Definition Sources : Type := list string.

Definition sources_of (source : string) : Sources := [source].

Definition merge_sources (a b : Sources) : Sources := a ++ b.

Definition slug_value (k : WarningType.t) : string :=
  match k with
  | WarningType.SOURCES_DONT_MATCH => "SOURCES_DONT_MATCH"
  | WarningType.MISSING_COUNTY_BULLETINS => "MISSING_COUNTY_BULLETINS"
  | WarningType.MISSING_IMPORTED_UNDEFINED_CASES =>
      "MISSING_IMPORTED_UNDEFINED_CASES"
  | WarningType.ONLY_TOTAL => "ONLY_TOTAL"
  | WarningType.MISSING_CONFIRMED_CASES => "MISSING_CONFIRMED_CASES"
  | WarningType.MISSING_DEATHS => "MISSING_DEATHS"
  | WarningType.NO_OFFICIAL_TOTAL => "NO_OFFICIAL_TOTAL"
  | WarningType.TOTAL_DONT_MATCH => "TOTAL_DONT_MATCH"
  end.

Fixpoint code (s : string) : N :=
  match s with
  | EmptyString => 0%N
  | String c rest => (N_of_ascii c + 256 * code rest)%N
  end.

Definition hash_city_state (city : string) (state : State) : Z :=
  Z.of_N (code (state ++ "/" ++ city)%string).

Definition county_eq (a b : CountyBulletinModel Date State Sources) : bool :=
  Z.eqb (date a) (date b) && String.eqb (state a) (state b)
  && String.eqb (city a) (city b)
  && opt_eqb (confirmed_cases a) (confirmed_cases b)
  && opt_eqb (deaths a) (deaths b).

Definition Row : Type := string * option Z * option Z.

Definition county_to_csv_row (b : CountyBulletinModel Date State Sources)
  : Row :=
  (city b, confirmed_cases b, deaths b).

Definition imported_to_csv_row (b : BulletinModel Date State Sources) : Row :=
  ("Importados/Indefinidos", confirmed_cases b, deaths b).

Definition total_to_csv_row (b : BulletinModel Date State Sources) : Row :=
  ("TOTAL NO ESTADO", confirmed_cases b, deaths b).

Definition add (b : Bulletin Date State Sources)
           (r : FullReportModel Date State Sources)
  : FullReportModel Date State Sources :=
  add_new_bulletin merge_sources slug_value hash_city_state county_eq b r.

Definition rows (r : FullReportModel Date State Sources) : list Row :=
  to_csv_rows county_to_csv_row imported_to_csv_row total_to_csv_row r.

Definition county (name source : string) (cases dead : option Z)
  : CountyBulletinModel Date State Sources :=
  mkCounty (mkBulletin 18500 "SP" [source] cases dead) name.

(** The report [FullReportModel(day, day, SP, [COUNTY_BULLETINS])]. *)
Definition report : FullReportModel Date State Sources :=
  mkReport 18500 18500 "SP"
    (new_bulletin sources_of 18500 "SP" "Não encontrada") [] []
    (new_bulletin sources_of 18500 "SP" "Soma automática")
    [ReportQuality.COUNTY_BULLETINS] [].

Example report_is_constructed :
  init sources_of 18500 18500 "SP" [ReportQuality.COUNTY_BULLETINS]
  = inr report.
Proof. reflexivity. Qed.

Example no_qualities_no_report :
  init sources_of 18500 18500 "SP" []
  = inl (BadReport "A report can't have no qualities.").
Proof. reflexivity. Qed.

(** One county, the undefined bucket and one official total that agrees. *)
Example county_undefined_and_official_total :
  let r :=
    add (StateTotal (mkBulletin 18500 "SP" ["SES"] (Some 12) (Some 1)))
      (add (ImportedUndefined
              (mkBulletin 18500 "SP" ["SES"] (Some 2) (Some 0)))
         (add (County (county "Campinas" "SES" (Some 10) (Some 1)))
            report)) in
  check_total_confirmed_cases r = true
  /\ check_total_death_cases r = true
  /\ fst (warnings_slug slug_value r) = ""
  /\ rows r = [("Campinas", Some 10, Some 1);
               ("Importados/Indefinidos", Some 2, Some 0);
               ("TOTAL NO ESTADO", Some 12, Some 1)].
Proof. vm_compute. repeat split. Qed.

(** Two partial bulletins of one county are merged, with no warning; the
    rows come out by city. *)
Example partial_bulletins_are_merged :
  let r :=
    add (County (county "Campinas" "B" None (Some 1)))
      (add (County (county "Americana" "A" (Some 7) (Some 0)))
         (add (County (county "Campinas" "A" (Some 10) None)) report)) in
  rows r = [("Americana", Some 7, Some 0);
            ("Campinas", Some 10, Some 1);
            ("Importados/Indefinidos", None, None);
            ("TOTAL NO ESTADO", Some 17, Some 1)]
  /\ fst (warnings_slug slug_value r) = "__NO_OFFICIAL_TOTAL".
Proof. vm_compute. repeat split. Qed.

(** Two sources that disagree on the deaths of a county: a warning, and
    the complete bulletin seen first is kept. *)
Example disagreeing_sources_warn :
  let r :=
    add (County (county "Campinas" "B" (Some 10) (Some 3)))
      (add (County (county "Campinas" "A" (Some 10) (Some 1))) report) in
  rows r = [("Campinas", Some 10, Some 1);
            ("Importados/Indefinidos", None, None);
            ("TOTAL NO ESTADO", Some 10, Some 1)]
  /\ fst (warnings_slug slug_value r)
     = "__NO_OFFICIAL_TOTAL__SOURCES_DONT_MATCH".
Proof. vm_compute. repeat split. Qed.

(** The undefined/imported bulletin ingested twice is counted twice. *)
Example imported_twice_is_counted_twice :
  let b := mkBulletin 18500 "SP" ["SES"] (Some 1) None in
  let r := add (ImportedUndefined b) (add (ImportedUndefined b) report) in
  confirmed_cases (_auto_calculated_total r) = Some 2
  /\ contributed (@confirmed_cases _ _ _) r = 1.
Proof. vm_compute. repeat split. Qed.


(** C3 at two bulletins of Campinas on the new report: the second one,
    complete, replaces the first, and the total is 4 and 1, not 14. *)
Lemma county_replacement_witness :
  let a := county "Campinas" "A" (Some 10) None in
  let b := county "Campinas" "B" (Some 4) (Some 1) in
  let r := add (County b) (add (County a) report) in
  _county_bulletins r = [(hash hash_city_state b, b)]
  /\ confirmed_cases (_auto_calculated_total r) = Some 4
  /\ deaths (_auto_calculated_total r) = Some 1.
Proof.
  intros a b r.
  pose proof (county_bulletin_of_stored_key_replaces
                sources_of merge_sources slug_value hash_city_state
                county_eq b) as [_ H].
  specialize (H 18500 18500 "SP" [ReportQuality.COUNTY_BULLETINS] report a
                eq_refl eq_refl).
  destruct H as (H1 & H2 & H3 & _).
  split; [exact H1|]. split; [exact H2|exact H3].
Defined.

(** *** Further runs *)

Definition run (bs : list (Bulletin Date State Sources))
           (r : FullReportModel Date State Sources)
  : FullReportModel Date State Sources :=
  ingest merge_sources slug_value hash_city_state county_eq bs r.

Definition campinas_complete : CountyBulletinModel Date State Sources :=
  county "Campinas" "A" (Some 10) (Some 1).

Definition campinas_partial : CountyBulletinModel Date State Sources :=
  county "Campinas" "B" (Some 4) None.

Definition americana : CountyBulletinModel Date State Sources :=
  county "Americana" "A" (Some 7) (Some 0).

Definition official (cases dead : option Z)
  : BulletinModel Date State Sources :=
  mkBulletin 18500 "SP" ["SES"] cases dead.

(** The report with one county, the undefined bucket and an official total
    that agrees with them. *)
Definition validated : FullReportModel Date State Sources :=
  run [County campinas_complete;
       ImportedUndefined (official (Some 2) (Some 0));
       StateTotal (official (Some 12) (Some 1))] report.

Ltac keys_differ :=
  vm_compute;
  repeat (constructor; [simpl; intuition discriminate|]); constructor.


(** X1 on three county bulletins, two of them of one county. *)
Lemma county_keys_stay_unique_witness :
  keys_unique (run [County campinas_complete; County campinas_partial;
                    County americana] report).
Proof.
  apply county_keys_stay_unique. apply NoDup_nil.
Defined.

(** X2: Campinas is stored again behind Americana. *)
Lemma county_bulletin_is_stored_last_witness :
  let self := run [County campinas_complete; County americana] report in
  _county_bulletins (add (County campinas_partial) self)
  = [(hash hash_city_state americana, americana);
     (hash hash_city_state campinas_complete, campinas_complete)].
Proof.
  intros self.
  assert (U : keys_unique self) by keys_differ.
  exact (proj1 (county_bulletin_is_stored_last merge_sources slug_value
                  hash_city_state county_eq campinas_partial U)).
Defined.

(** X3: the complete bulletin of Campinas stays. *)
Lemma complete_county_bulletin_is_kept_witness :
  let self := add (County campinas_complete) report in
  let after := add (County campinas_partial) self in
  dict_get (hash hash_city_state campinas_partial) (_county_bulletins after)
  = Some campinas_complete
  /\ count (confirmed_cases (_auto_calculated_total after)) = 10
  /\ count (deaths (_auto_calculated_total after)) = 1.
Proof.
  intros self after.
  exact (complete_county_bulletin_is_kept merge_sources slug_value
           hash_city_state county_eq campinas_partial self
           eq_refl eq_refl).
Defined.

(** X4: a bulletin with deaths only meets one with confirmed cases only. *)
Lemma collision_never_loses_a_count_witness :
  let self := add (County campinas_partial) report in
  let incoming := county "Campinas" "C" None (Some 2) in
  exists stored,
    dict_get (hash hash_city_state incoming)
      (_county_bulletins (add (County incoming) self)) = Some stored
    /\ has_confirmed_cases stored = true
    /\ has_deaths stored = true.
Proof.
  intros self incoming.
  destruct (collision_never_loses_a_count merge_sources slug_value
              hash_city_state county_eq incoming self eq_refl)
    as (stored & H1 & H2 & _ & H4).
  exists stored. split; [exact H1|]. split; [exact (H2 eq_refl)|].
  destruct (H4 eq_refl) as [_ H]. rewrite H. reflexivity.
Defined.

(** X6: an empty state total and a non-empty one are ingested. *)
Lemma official_totals_are_never_empty_witness :
  let r := run [StateTotal (official None None);
                StateTotal (official (Some 12) (Some 1))] report in
  is_empty (total_bulletin r) = false.
Proof.
  intros r.
  apply (proj2 (official_totals_are_never_empty merge_sources slug_value
                  hash_city_state county_eq _ report (Forall_nil _))).
  discriminate.
Defined.

(** X12 on the validated report. *)
Lemma empty_slug_means_nothing_is_missing_witness :
  fst (warnings_slug slug_value validated) = ""
  /\ has_confirmed_cases (total_bulletin validated) = true
  /\ has_deaths (total_bulletin validated) = true.
Proof.
  split; [reflexivity|].
  pose proof (empty_slug_means_nothing_is_missing slug_value validated
                eq_refl) as (_ & _ & H3 & H4 & _).
  split; [exact H3|exact H4].
Defined.

(** X13 on the validated report: its official total reports 12 and 1. *)
Lemma passing_check_means_official_equals_sum_witness :
  total_is_sum validated
  /\ check_total_confirmed_cases validated = true
  /\ (forall o, In o (_official_total_bulletins validated) ->
                count (confirmed_cases o) = 12).
Proof.
  assert (T : total_is_sum validated) by (split; reflexivity).
  split; [exact T|]. split; [reflexivity|].
  exact (proj2 (proj1 (passing_check_means_official_equals_sum T)
                  eq_refl)).
Defined.

(** X14 after the first two of three calls. *)
Lemma total_is_sum_after_each_call_witness :
  let bs := [County campinas_partial;
             ImportedUndefined (official (Some 2) None);
             County campinas_complete] in
  total_is_sum (run (firstn 2 bs) report).
Proof.
  intros bs.
  apply (total_is_sum_after_each_call sources_of merge_sources slug_value
           hash_city_state county_eq 18500 18500 "SP"
           [ReportQuality.COUNTY_BULLETINS] bs 2 eq_refl).
  unfold imported_count. simpl. lia.
Defined.

(** X15: Americana is stored next to Campinas and popped again. *)
Lemma pop_undoes_a_new_county_bulletin_witness :
  let self := add (County campinas_complete) report in
  let popped :=
    _pop_county_bulletin (hash hash_city_state americana)
      (add (County americana) self) in
  fst popped = Some americana
  /\ _county_bulletins (snd popped) = _county_bulletins self.
Proof.
  intros self popped.
  destruct (pop_undoes_a_new_county_bulletin merge_sources slug_value
              hash_city_state county_eq americana self eq_refl)
    as (_ & H2 & H3 & _).
  split; [exact H2|exact H3].
Defined.

(** X17: Campinas then Americana, and Americana then Campinas. *)
Lemma county_bulletins_of_different_keys_commute_witness :
  confirmed_cases
    (_auto_calculated_total
       (add (County americana) (add (County campinas_partial) report)))
  = confirmed_cases
      (_auto_calculated_total
         (add (County campinas_partial) (add (County americana) report))).
Proof.
  assert (N : hash hash_city_state campinas_partial
              <> hash hash_city_state americana).
  { intros H. vm_compute in H. discriminate H. }
  exact (proj1 (proj2 (county_bulletins_of_different_keys_commute
                         merge_sources slug_value hash_city_state
                         county_eq campinas_partial americana report N))).
Defined.

End Concrete.
